(** * tele-scope: the stash / apply / commit / push / rebase / drop workflow

    A shallow embedding of [python/tele_scope.py] (Python 2, on GitPython).

    The script drives git through GitPython.  The repository is modelled by
    a record holding the part of its state the script reads (class of the
    object, branches, remotes, HEAD, configuration, working directory), the
    part the workflow is about (stash list, commits), what git acts on
    without the script looking at it (the commits a pull would bring in,
    whether a rebase stops on a conflict) and a log of every call made on
    the repository with its outcome.  What a git command answers (a
    returned string, or a raised exception) is not decided by the script:
    it is given by an oracle, a function of the log so far and of the call,
    over which the theorems quantify.  A call that returns has not thereby
    succeeded: a push that the remote rejects returns a result that says
    so.

    Python exceptions are values of [exn]; a computation is a function from a
    state to a [result] and the next state, and [try ... except] is
    [try_except]. *)

From Stdlib Require Import String Ascii List Bool Arith Lia.
Import ListNotations.
Local Open Scope list_scope.
Local Open Scope string_scope.

Set Implicit Arguments.

(* ===================================================================== *)
(** ** Python values, exceptions and control flow *)
(* ===================================================================== *)

Module Py.

(** The exception classes the script raises or catches.  [E_Other] stands
    for any class unrelated to the others. *)
Inductive exn_class : Type :=
| E_BranchError
| E_StashError
| E_CommitError
| E_RemoteError
| E_ConflictError
| E_GitCommandError
| E_InvalidGitRepositoryError
| E_IndexError
| E_TypeError
| E_AttributeError
| E_ValueError
| E_Other (name : string).

Definition exn_class_eq_dec (a b : exn_class) : {a = b} + {a <> b}.
Proof. decide equality; apply string_dec. Defined.

Definition exn_class_eqb (a b : exn_class) : bool :=
  if exn_class_eq_dec a b then true else false.

(** An exception instance: its class and its [message] attribute. *)
Record exn : Type := mkExn { exn_cls : exn_class; exn_message : string }.

Inductive result (A : Type) : Type :=
| Ok (a : A)
| Raise (e : exn).
Arguments Ok {A} a.
Arguments Raise {A} e.

(** A computation over a state [S]. *)
Definition M (S A : Type) : Type := S -> result A * S.

Definition ret {S A} (a : A) : M S A := fun s => (Ok a, s).

Definition bind {S A B} (m : M S A) (k : A -> M S B) : M S B :=
  fun s => match m s with
           | (Ok a, s') => k a s'
           | (Raise e, s') => (Raise e, s')
           end.

Definition raise {S A} (e : exn) : M S A := fun s => (Raise e, s).

Definition get {S} : M S S := fun s => (Ok s, s).
Definition modify {S} (f : S -> S) : M S unit := fun s => (Ok tt, f s).

(** [raise C(args)]: the constructor call [C(args)] is evaluated first, and
    may itself raise. *)
Definition raise_new {S A} (c : result exn) : M S A :=
  match c with
  | Ok e => raise e
  | Raise e => raise e
  end.

(** The clauses of a [try] statement. *)
Inductive clause : Type :=
| except (cls : exn_class)     (* except cls [as ex]: *)
| except_Exception             (* except Exception as ex: *)
| except_bare.                 (* except: *)

(** Every class of [exn_class] derives from [Exception]; the classes the
    script names in [except] clauses are unrelated to each other. *)
Definition matches (c : clause) (ex : exn) : bool :=
  match c with
  | except cls => exn_class_eqb (exn_cls ex) cls
  | except_Exception => true
  | except_bare => true
  end.

Fixpoint handle {S A} (hs : list (clause * (exn -> M S A))) (ex : exn) : M S A :=
  match hs with
  | [] => raise ex
  | (c, h) :: hs' => if matches c ex then h ex else handle hs' ex
  end.

(** [try: body  except ...: ...] : the first clause that matches handles
    the exception; with none, it propagates. *)
Definition try_except {S A} (body : M S A) (hs : list (clause * (exn -> M S A))) : M S A :=
  fun s => match body s with
           | (Ok a, s') => (Ok a, s')
           | (Raise ex, s') => handle hs ex s'
           end.

(** [for x in xs: body] *)
Fixpoint for_each {S A} (xs : list A) (body : A -> M S unit) : M S unit :=
  match xs with
  | [] => ret tt
  | x :: xs' => bind (body x) (fun _ => for_each xs' body)
  end.

(** [str.lower()] on ASCII. *)
Definition lower_ascii (c : ascii) : ascii :=
  let n := nat_of_ascii c in
  if Nat.leb 65 n && Nat.leb n 90 then ascii_of_nat (n + 32) else c.

Fixpoint lower (s : string) : string :=
  match s with
  | EmptyString => EmptyString
  | String c s' => String (lower_ascii c) (lower s')
  end.

(** [s.split(sep)] for a one-character separator. *)
Fixpoint split (sep : ascii) (s : string) : list string :=
  match s with
  | EmptyString => [EmptyString]
  | String c s' =>
      if Ascii.eqb c sep then EmptyString :: split sep s'
      else match split sep s' with
           | [] => [String c EmptyString]
           | w :: ws => String c w :: ws
           end
  end.

End Py.

Import Py.

Declare Scope py_scope.
Delimit Scope py_scope with py.
Notation "x <- m ;; k" := (bind m (fun x => k))
  (at level 61, m at next level, right associativity) : py_scope.
Notation "m ;; k" := (bind m (fun _ => k))
  (at level 61, right associativity) : py_scope.
Local Open Scope py_scope.

(* ===================================================================== *)
(** ** The exception classes of the script (lines 5-23) *)
(* ===================================================================== *)

(** [BranchError.__init__] calls [super(BranchError, self).__init(message)]:
    inside the class body the name [__init] is mangled to
    [_BranchError__init], which the base class does not have, so creating a
    [BranchError] raises [AttributeError]. *)
Definition BranchError (message : string) : result exn :=
  Raise (mkExn E_AttributeError
               "'super' object has no attribute '_BranchError__init'").

Definition StashError (message : string) : result exn :=
  Ok (mkExn E_StashError message).

Definition CommitError (message : string) : result exn :=
  Ok (mkExn E_CommitError message).

Definition RemoteError (message : string) : result exn :=
  Ok (mkExn E_RemoteError message).

Definition ConflictError (message : string) : result exn :=
  Ok (mkExn E_ConflictError message).

(** [class ExitStatus]:
    [SUCCESS, BRANCHERROR, STASHERROR, COMMITERROR, REMOTERROR, CONFLICTS = range(6)] *)
Module ExitStatus.
Definition SUCCESS : nat := 0.
Definition BRANCHERROR : nat := 1.
Definition STASHERROR : nat := 2.
Definition COMMITERROR : nat := 3.
Definition REMOTERROR : nat := 4.
Definition CONFLICTS : nat := 5.
End ExitStatus.

(* ===================================================================== *)
(** ** The repository, as GitPython presents it *)
(* ===================================================================== *)

(** [repo.__class__]: [git.Repo] itself, a class derived from it, or a class
    that has nothing to do with it. *)
Inductive pyclass : Type :=
| git_Repo
| subclass_of_git_Repo (name : string)
| unrelated_class (name : string).

Definition is_git_Repo (c : pyclass) : bool :=
  match c with
  | git_Repo => true
  | _ => false
  end.

(** The [remote] attribute the script is handed: [None], a name, a
    [git.Remote] object (what [__main__] passes for the name of a remote),
    or an attribute of the list of remotes, such as its bound method
    [sort] (what [__main__] passes for a name that the list object itself
    has as an attribute, see [IterableList_getitem]). *)
Inductive remote_arg : Type :=
| py_None
| py_str (s : string)
| Remote (name : string)
| list_attr (name : string).

(** The calls the script makes on the repository object. *)
Inductive call : Type :=
| active_branch_name                       (* repo.active_branch.name *)
| config_reader                            (* repo.config_reader() *)
| has_option (section opt : string)     (* reader.has_option(section, option) *)
| get_value (section opt : string)      (* reader.get_value(section, option) *)
| heads_getitem (name : string)            (* repo.heads[name] *)
| remotes_getitem (ix : remote_arg)        (* repo.remotes[ix] *)
| get_working_dir                          (* repo.working_dir *)
| git_stash                                (* repo.git.stash() *)
| git_stash_apply                          (* repo.git.stash('apply') *)
| git_stash_drop                           (* repo.git.stash('drop') *)
| checkout (branch : string)               (* repo.heads[branch].checkout() *)
| git_add (path : string)                  (* repo.git.add(path) *)
| git_commit (author message : option string)
                                           (* repo.git.commit(author=, message=) *)
| remote_push (name : string)              (* remote.push() *)
| remote_pull (name : string)              (* remote.pull() *)
| head_reset                               (* repo.head.reset() *)
| checkout_force                           (* active_branch.checkout(force=True) *)
| git_rebase (onto : string).              (* repo.git.rebase(onto) *)

Inductive outcome : Type :=
| Returns (s : string)
| Raises (e : exn).

Abbreviation event := (call * outcome)%type.

(** A commit made during the run. *)
Record Commit : Type := mkCommit {
  commit_branch : option string;
  commit_author : option string;
  commit_message : option string }.

(** The repository.  [log], [stash_list] and [commits] hold the most
    recent entry first; a stash entry is named by the length of the log when
    it was made; [HEAD] is [None] when it is detached.

    Two fields say of the repository what the script never looks at but
    git acts on: [incoming], the commits a pull brings in (what the remote
    has and the branch checked out has not); and [stops_on_conflict], how
    a rebase fails in this repository when it fails: [true] when it stops
    halfway, on a conflict between the work of the branch checked out and
    the upstream branch, which leaves HEAD detached; [false] when it fails
    before it has started (an unknown upstream, a rebase already going
    on), which leaves HEAD where it was. *)
Record Repo : Type := mkRepo {
  repo_class : pyclass;
  working_dir : string;
  heads : list string;
  remotes : list string;
  HEAD : option string;
  config : list (string * string * string);
  stash_list : list nat;
  commits : list Commit;
  incoming : list Commit;
  stops_on_conflict : bool;
  log : list event }.

Definition set_HEAD (b : string) (r : Repo) : Repo :=
  mkRepo (repo_class r) (working_dir r) (heads r) (remotes r) (Some b)
         (config r) (stash_list r) (commits r) (incoming r) (stops_on_conflict r) (log r).

Definition detach_HEAD (r : Repo) : Repo :=
  mkRepo (repo_class r) (working_dir r) (heads r) (remotes r) None
         (config r) (stash_list r) (commits r) (incoming r) (stops_on_conflict r) (log r).

Definition set_stash_list (l : list nat) (r : Repo) : Repo :=
  mkRepo (repo_class r) (working_dir r) (heads r) (remotes r) (HEAD r)
         (config r) l (commits r) (incoming r) (stops_on_conflict r) (log r).

Definition set_commits (l : list Commit) (r : Repo) : Repo :=
  mkRepo (repo_class r) (working_dir r) (heads r) (remotes r) (HEAD r)
         (config r) (stash_list r) l (incoming r) (stops_on_conflict r) (log r).

Definition record (c : call) (o : outcome) (r : Repo) : Repo :=
  mkRepo (repo_class r) (working_dir r) (heads r) (remotes r) (HEAD r)
         (config r) (stash_list r) (commits r) (incoming r) (stops_on_conflict r)
         ((c, o) :: log r).

(** A pull fetches what the remote has and integrates it into the branch
    checked out: the incoming commits become commits of that branch, and
    nothing is incoming any more. *)
Definition on_branch (b : option string) (c : Commit) : Commit :=
  mkCommit b (commit_author c) (commit_message c).

Definition pulled (r : Repo) : Repo :=
  mkRepo (repo_class r) (working_dir r) (heads r) (remotes r) (HEAD r)
         (config r) (stash_list r)
         (map (on_branch (HEAD r)) (incoming r) ++ commits r) [] (stops_on_conflict r)
         (log r).

Definition No_local_changes_to_save : string := "No local changes to save".

(** What a call changes in the repository.  Of the calls that returned:
    [git stash] adds a stash entry unless it reports that there was nothing
    to save, [git stash drop] removes the latest entry, a checkout moves
    HEAD, a commit is made on the branch checked out, a pull brings the
    incoming commits into the branch checked out.  [stash apply], [add],
    the index reset, the forced checkout of the current branch and
    [rebase] change neither the stash list nor the commits recorded here,
    and a push changes nothing in the local repository, whether the remote
    took it or not.  Of the calls that raised: a rebase that stopped on a
    conflict has left HEAD detached (the script does not abort it); every
    other call that raised changed nothing of what is recorded here. *)
Definition effect (c : call) (o : outcome) (r : Repo) : Repo :=
  match o with
  | Raises _ =>
      match c with
      | git_rebase _ => if stops_on_conflict r then detach_HEAD r else r
      | _ => r
      end
  | Returns s =>
      match c with
      | git_stash =>
          if String.eqb s No_local_changes_to_save then r
          else set_stash_list (length (log r) :: stash_list r) r
      | git_stash_drop => set_stash_list (tl (stash_list r)) r
      | checkout b => set_HEAD b r
      | git_commit a m => set_commits (mkCommit (HEAD r) a m :: commits r) r
      | remote_pull _ => pulled r
      | _ => r
      end
  end.

(** [remote.push()] returns the [PushInfo] objects that GitPython makes of
    the lines [git push --porcelain] prints, one for each ref; the first
    character of a line is the flag of the ref, [!] for a ref that the
    remote rejected or that could not be pushed ([PushInfo.ERROR]).  A push
    that the remote rejects returns such a result; it does not raise.  The
    answer [Returns s] to a push holds these lines. *)
Definition push_error (s : string) : bool :=
  existsb (prefix "!") (split (ascii_of_nat 10) s).

Definition outcome_result (o : outcome) : result string :=
  match o with
  | Returns s => Ok s
  | Raises e => Raise e
  end.

(** A read of the repository object: answered from its state, and logged. *)
Definition read (c : call) (answer : Repo -> outcome) : M Repo string :=
  fun r => (outcome_result (answer r), record c (answer r) r).

Definition lookup_option (section opt : string)
  (cfg : list (string * string * string)) : option string :=
  match find (fun e => String.eqb (fst (fst e)) section && String.eqb (snd (fst e)) opt) cfg with
  | Some e => Some (snd e)
  | None => None
  end.

Definition mem (x : string) (l : list string) : bool :=
  existsb (String.eqb x) l.

(** [repo.active_branch.name]; [active_branch] raises [TypeError] on a
    detached HEAD. *)
Definition repo_active_branch_name : M Repo string :=
  read active_branch_name
       (fun r => match HEAD r with
                 | Some b => Returns b
                 | None => Raises (mkExn E_TypeError "HEAD is a detached symbolic reference")
                 end).

Definition repo_config_reader : M Repo string :=
  read config_reader (fun _ => Returns "").

Definition reader_has_option (section opt : string) : M Repo bool :=
  s <- read (has_option section opt)
            (fun r => match lookup_option section opt (config r) with
                      | Some _ => Returns "True"
                      | None => Returns "False"
                      end) ;;
  ret (String.eqb s "True").

Definition reader_get_value (section opt : string) : M Repo string :=
  read (get_value section opt)
       (fun r => match lookup_option section opt (config r) with
                 | Some v => Returns v
                 | None => Raises (mkExn (E_Other "NoOptionError") opt)
                 end).

(** [repo.heads] and [repo.remotes] are [IterableList]s, a subclass of
    [list].  Indexed by a name, an [IterableList] calls [getattr] on
    itself: the name is first looked up as an attribute of the list object,
    and only a name that is not one is looked for among the items; when no
    item has it either, the [AttributeError] is turned into [IndexError].
    So a name that a list has as an attribute never reaches the items,
    whether an item of that name exists or not.

    The attributes of a Python 2.7 list, and those the class
    [IterableList] adds. *)
Definition list_attributes : list string :=
  [ "__add__"; "__class__"; "__contains__"; "__delattr__"; "__delitem__";
    "__delslice__"; "__doc__"; "__eq__"; "__format__"; "__ge__";
    "__getattribute__"; "__getitem__"; "__getslice__"; "__gt__"; "__hash__";
    "__iadd__"; "__imul__"; "__init__"; "__iter__"; "__le__"; "__len__";
    "__lt__"; "__mul__"; "__ne__"; "__new__"; "__reduce__"; "__reduce_ex__";
    "__repr__"; "__reversed__"; "__rmul__"; "__setattr__"; "__setitem__";
    "__setslice__"; "__sizeof__"; "__str__"; "__subclasshook__";
    "append"; "count"; "extend"; "index"; "insert"; "pop"; "remove";
    "reverse"; "sort";
    "__getattr__"; "__module__"; "__slots__"; "_id_attr"; "_prefix" ].

Definition list_attribute (name : string) : bool := mem name list_attributes.
Arguments list_attribute name : simpl never.

(** What indexing by a name gives: the item of that name, or the attribute
    of that name of the list object (a bound method, for the most). *)
Inductive looked_up : Type :=
| item (name : string)
| attribute (name : string).

(** How an attribute of the list is entered in the log. *)
Definition attribute_repr (name : string) : string := "IterableList." ++ name.

(** Calling a method of a [Head] or of a [Remote] on an attribute of the
    list raises [AttributeError]: the attribute has no such method.  The
    message names the type of the object, here that of the methods of a
    list; an attribute that is not a method gives the same exception under
    the name of its own type. *)
Definition no_method (meth : string) : exn :=
  mkExn E_AttributeError
        ("'builtin_function_or_method' object has no attribute '" ++ meth ++ "'").

Definition IterableList_getitem (c : call) (items : Repo -> list string) (name : string)
  : M Repo looked_up :=
  if list_attribute name then
    _ <- read c (fun _ => Returns (attribute_repr name)) ;;
    ret (attribute name)
  else
    s <- read c (fun r => if mem name (items r) then Returns name
                          else Raises (mkExn E_IndexError ("No item found with id " ++ name))) ;;
    ret (item s).

(** [repo.heads[name]] *)
Definition repo_heads_getitem (name : string) : M Repo looked_up :=
  IterableList_getitem (heads_getitem name) heads name.

(** [repo.remotes[ix]]: indexed by anything but a name (or an integer), the
    [getattr] behind it raises [TypeError]. *)
Definition repo_remotes_getitem (ix : remote_arg) : M Repo looked_up :=
  match ix with
  | py_str name => IterableList_getitem (remotes_getitem ix) remotes name
  | _ =>
      _ <- read (remotes_getitem ix)
             (fun _ => Raises (mkExn E_TypeError "getattr(): attribute name must be string")) ;;
      raise (mkExn E_TypeError "getattr(): attribute name must be string")
  end.

Definition repo_working_dir : M Repo string :=
  read get_working_dir (fun r => Returns (working_dir r)).

(** ['{0}'.format(remote)] *)
Definition dquote : string := String (ascii_of_nat 34) EmptyString.
Definition nl : string := String (ascii_of_nat 10) EmptyString.
Definition tab : string := String (ascii_of_nat 9) EmptyString.

Definition format_remote (x : remote_arg) : string :=
  match x with
  | py_None => "None"
  | py_str s => s
  | Remote name => "<git.Remote " ++ dquote ++ name ++ dquote ++ ">"
  | list_attr name => "<built-in method " ++ name ++ " of IterableList object>"
  end.

(* ===================================================================== *)
(** ** class TeleScope (lines 29-187) *)
(* ===================================================================== *)

(** The attributes of an instance.  [self.repo] refers to the one
    repository object of the process: its state is kept beside the instance,
    in [State]. *)
Record TeleScope : Type := mkTeleScope {
  thisbranch : string;
  upstream : string;
  remote : remote_arg;
  user : option string;
  email : option string;
  message : option string;
  norebase : bool;
  noclear : bool;
  reapply : bool;
  pull : bool }.

Definition set_reapply (b : bool) (t : TeleScope) : TeleScope :=
  mkTeleScope (thisbranch t) (upstream t) (remote t) (user t) (email t)
              (message t) (norebase t) (noclear t) b (pull t).

(** The state a method runs in: the instance, the repository it refers to,
    and what was written to [sys.stderr] (latest first). *)
Record State : Type := mkState {
  self : TeleScope;
  repo : Repo;
  stderr : list string }.

Definition on_repo {A} (m : M Repo A) : M State A :=
  fun st => let (a, r) := m (repo st) in (a, mkState (self st) r (stderr st)).

Definition on_self (f : TeleScope -> TeleScope) : M State unit :=
  modify (fun st => mkState (f (self st)) (repo st) (stderr st)).

Definition sys_stderr_write (s : string) : M State unit :=
  modify (fun st => mkState (self st) (repo st) (s :: stderr st)).

Definition is_None {A} (o : option A) : bool :=
  match o with
  | None => true
  | Some _ => false
  end.

Section TeleScope.

(** The answer of git to a command, given the log so far. *)
Variable git : list event -> call -> outcome.

(** [os.path.abspath] in the directory the process runs in. *)
Variable abspath : string -> string.

(** A command handed to git: the oracle answers, the repository changes
    accordingly, the call is logged. *)
Definition exec (c : call) : M Repo string :=
  fun r => let o := git (log r) c in
           (outcome_result o, record c o (effect c o r)).

(** Lines 79-83. *)
Definition getOption (name : string) (value : option string) : M Repo (option string) :=
  match split "." name with
  | [section; opt] =>
      b <- (if is_None value then reader_has_option section opt else ret false) ;;
      if b then
        v <- reader_get_value section opt ;;
        ret (Some v)
      else ret value
  | _ => raise (mkExn E_ValueError "need exactly 2 values to unpack")
  end.

(** Lines 56-77; the state is the [repo] argument. *)
Definition __init__ (upstream : string) (remote : remote_arg)
  (user email message : option string) (norebase noclear pull : bool)
  : M Repo TeleScope :=
  r <- get ;;
  if negb (is_git_Repo (repo_class r)) then
    raise (mkExn E_TypeError "'repo' must be a Git repository object.")
  else
    thisbranch <- repo_active_branch_name ;;
    _ <- repo_config_reader ;;
    user' <- getOption "user.name" user ;;
    email' <- getOption "user.email" email ;;
    ret (mkTeleScope thisbranch upstream remote user' email' message
                     norebase noclear false pull).

(** Lines 85-93. *)
Definition stashChanges : M State unit :=
  result <- try_except (on_repo (exec git_stash))
              [ (except E_GitCommandError,
                 fun ex => raise_new (StashError (exn_message ex))) ] ;;
  if String.eqb result No_local_changes_to_save then
    raise_new (StashError result)
  else ret tt.

(** [h.checkout()] on what [repo.heads[name]] gave: a head is checked out
    by git; an attribute of the list has no method [checkout]. *)
Definition head_checkout (h : looked_up) : M Repo string :=
  match h with
  | item b => exec (checkout b)
  | attribute _ => raise (no_method "checkout")
  end.

(** [r.pull()] on what [repo.remotes[name]] gave. *)
Definition remote_pull_call (r : looked_up) : M Repo string :=
  match r with
  | item name => exec (remote_pull name)
  | attribute _ => raise (no_method "pull")
  end.

(** Lines 95-104. *)
Definition switchBranch (branch : string) : M State unit :=
  try_except
    (on_repo (h <- repo_heads_getitem branch ;;
              _ <- head_checkout h ;;
              ret tt))
    [ (except E_IndexError,
       fun _ => raise_new (BranchError ("Branch " ++ branch ++ " not found.")));
      (except E_TypeError,
       fun _ => raise_new (BranchError "branch argument should be a string."));
      (except E_GitCommandError,
       fun ex => raise_new (BranchError (exn_message ex))) ].

(** Lines 106-113. *)
Definition pullFromRemote : M State unit :=
  st <- get ;;
  try_except
    (on_repo (r <- repo_remotes_getitem (remote (self st)) ;;
              _ <- remote_pull_call r ;;
              ret tt))
    [ (except E_IndexError,
       fun _ => raise_new (RemoteError ("Remote " ++ format_remote (remote (self st))
                                        ++ " not found")));
      (except_Exception,
       fun ex => raise_new (RemoteError ("Problem with pull:" ++ nl ++ exn_message ex))) ].

(** Lines 163-165.  The instance has no attribute [active_branch] (the
    repository has): reading [self.active_branch] raises. *)
Definition backoutChanges : M State unit :=
  _ <- on_repo (exec head_reset) ;;
  raise (mkExn E_AttributeError "TeleScope instance has no attribute 'active_branch'").

(** [self.remote.push()], line 156. *)
Definition remote_push_call (x : remote_arg) : M State string :=
  match x with
  | Remote name => on_repo (exec (remote_push name))
  | py_str _ => raise (mkExn E_AttributeError "'str' object has no attribute 'push'")
  | py_None => raise (mkExn E_AttributeError "'NoneType' object has no attribute 'push'")
  | list_attr _ => raise (no_method "push")
  end.

(** Lines 141-146. *)
Definition authorstring (user email : option string) : option string :=
  match email with
  | None => user
  | Some e =>
      match user with
      | None => email
      | Some u => Some (u ++ " <" ++ e ++ ">")
      end
  end.

(** The loop of lines 136-137. *)
Definition add_loop (files : list string) : M State unit :=
  for_each files (fun newfile =>
    _ <- on_repo (exec (git_add (abspath newfile))) ;; ret tt).

(** Lines 116-161. *)
Definition applyChanges (files : option (list string)) : M State unit :=
  st <- get ;;
  _ <- try_except (switchBranch (upstream (self st)))
         [ (except_bare, fun ex => raise ex) ] ;;
  _ <- try_except (on_repo (exec git_stash_apply))
         [ (except E_GitCommandError,
            fun ex => raise_new (StashError (exn_message ex))) ] ;;
  files <- match files with
           | None => wd <- on_repo repo_working_dir ;; ret [wd]
           | Some fs => _ <- on_self (set_reapply true) ;; ret fs
           end ;;
  _ <- try_except (add_loop files)
         [ (except E_GitCommandError,
            fun ex => raise_new (CommitError (exn_message ex))) ] ;;
  st <- get ;;
  _ <- try_except
         (on_repo (exec (git_commit (authorstring (user (self st)) (email (self st)))
                                    (message (self st)))))
         [ (except E_GitCommandError,
            fun ex => raise_new (CommitError (exn_message ex))) ] ;;
  _ <- (if negb (match remote (self st) with py_None => true | _ => false end) then
          _ <- try_except (remote_push_call (remote (self st)))
                 [ (except E_GitCommandError,
                    fun ex => raise_new (RemoteError ("Problem with push:" ++ nl
                                                      ++ exn_message ex))) ] ;;
          ret tt
        else ret tt) ;;
  st <- get ;;
  if reapply (self st) then backoutChanges else ret tt.

(** Lines 167-187. *)
Definition switchAndRebase : M State unit :=
  st <- get ;;
  _ <- try_except (switchBranch (thisbranch (self st)))
         [ (except_bare, fun ex => raise ex) ] ;;
  _ <- (if norebase (self st) then
          sys_stderr_write "--norebase option set, skipping rebase."
        else
          _ <- try_except (on_repo (exec (git_rebase (upstream (self st)))))
                 [ (except E_GitCommandError,
                    fun ex => raise_new (ConflictError ("Problem in rebase:" ++ nl
                                                        ++ exn_message ex))) ] ;;
          ret tt) ;;
  if noclear (self st) then
    sys_stderr_write "--noclear option set, keeping stash."
  else
    _ <- on_repo (exec git_stash_drop) ;; ret tt.

End TeleScope.

(* ===================================================================== *)
(** ** The script run as a program (lines 189-269) *)
(* ===================================================================== *)

(** The parsed command line ([parser.parse_args()]). *)
Module Args.
Record t : Type := mk {
  norebase : bool;
  noclear : bool;
  email : option string;
  message : option string;
  branch : string;
  pull : bool;
  remote : string;
  user : option string;
  files : list string }.
End Args.

(** How the process ends: its exit status, what it wrote (latest first), and
    the repository as it leaves it. *)
Record Exit : Type := mkExit {
  exit_code : nat;
  sys_stderr : list string;
  sys_stdout : list string;
  final_repo : option Repo }.

(** A script that runs off its last statement exits with status 0; one that
    dies of an uncaught exception prints a traceback and exits with 1. *)
Definition end_of_script : nat := 0.
Definition uncaught_exception : nat := 1.

Section Main.

Variable git : list event -> call -> outcome.
Variable abspath : string -> string.

(** The three methods in the order of lines 262-264. *)
Definition workflow (files : option (list string)) : M State unit :=
  _ <- stashChanges git ;;
  _ <- applyChanges git abspath files ;;
  switchAndRebase git.

(** Lines 262-264: [args.files] is a list, never [None]. *)
Definition phases (files : list string) : M State unit :=
  workflow (Some files).

(** Lines 249-256: [tsRemote] is what the lookup gave, whatever it is. *)
Definition find_remote (name : string) : M Repo remote_arg :=
  if negb (String.eqb (lower name) "none") then
    r <- repo_remotes_getitem (py_str name) ;;
    ret (match r with
         | item n => Remote n
         | attribute a => list_attr a
         end)
  else ret py_None.

(** [here_repo] is what [git.Repo(os.getcwd())] gives: [None] when it raises
    [InvalidGitRepositoryError]. *)
Definition main (here_repo : option Repo) (args : Args.t) : Exit :=
  match here_repo with
  | None =>
      mkExit ExitStatus.BRANCHERROR
             ["You must be inside a git repository to run tele-scope." ++ nl] [] None
  | Some repo0 =>
      match find_remote (Args.remote args) repo0 with
      | (Raise ex, r1) =>
          if matches (except E_IndexError) ex then
            mkExit ExitStatus.REMOTERROR
                   [ "To run without remote, use " ++ dquote ++ "-r None" ++ dquote ++ nl;
                     "No remote " ++ Args.remote args ++ " found." ++ nl ]
                   [] (Some r1)
          else mkExit uncaught_exception [exn_message ex] [] (Some r1)
      | (Ok tsRemote, r1) =>
          match __init__ (Args.branch args) tsRemote (Args.user args) (Args.email args)
                         (Args.message args) (Args.norebase args) (Args.noclear args)
                         (Args.pull args) r1 with
          | (Raise ex, r2) =>
              (* except Exception as ex *)
              mkExit end_of_script [exn_message ex] [] (Some r2)
          | (Ok scoper, r2) =>
              match phases (Args.files args) (mkState scoper r2 []) with
              | (Raise ex, st) =>
                  (* except Exception as ex *)
                  mkExit end_of_script (exn_message ex :: stderr st) [] (Some (repo st))
              | (Ok _, st) =>
                  mkExit ExitStatus.SUCCESS (stderr st) ["Re-scope complete."]
                         (Some (repo st))
              end
          end
      end
  end.

End Main.

(* ===================================================================== *)
(** ** Concrete repositories and answers of git, for the examples *)
(* ===================================================================== *)

Module Examples.

(** A repository on branch [topic], with [master] upstream and the remote
    [origin], and a configured identity. *)
Definition repo0 : Repo :=
  mkRepo git_Repo "/work" ["master"; "topic"] ["origin"] (Some "topic")
         [("user", "name", "Ann"); ("user", "email", "ann@example.org")]
         [] [] [] true [].

(** The same without any identity configured. *)
Definition repo_anonymous : Repo :=
  mkRepo git_Repo "/work" ["master"; "topic"] ["origin"] (Some "topic")
         [] [] [] [] true [].

Definition abspath (p : string) : string :=
  if prefix "/" p then p else "/work/" ++ p.

(** Every git command succeeds. *)
Definition all_fine (_ : list event) (c : call) : outcome :=
  match c with
  | git_stash => Returns "Saved working directory and index state WIP on topic"
  | _ => Returns ""
  end.

(** The working tree is clean: [git stash] has nothing to save. *)
Definition clean_tree (_ : list event) (c : call) : outcome :=
  match c with
  | git_stash => Returns No_local_changes_to_save
  | _ => Returns ""
  end.

(** The remote rejects the push: [remote.push()] returns, and the line of
    the ref carries the error flag. *)
Definition rejection : string :=
  "!" ++ tab ++ "refs/heads/master:refs/heads/master" ++ tab ++ "[rejected] (fetch first)".

Definition push_rejected (_ : list event) (c : call) : outcome :=
  match c with
  | git_stash => Returns "Saved working directory and index state WIP on topic"
  | remote_push _ => Returns rejection
  | _ => Returns ""
  end.

(** The remote cannot be reached: [remote.push()] raises. *)
Definition push_unreachable (_ : list event) (c : call) : outcome :=
  match c with
  | git_stash => Returns "Saved working directory and index state WIP on topic"
  | remote_push _ => Raises (mkExn E_GitCommandError "Could not read from remote repository.")
  | _ => Returns ""
  end.

(** The rebase stops on a conflict. *)
Definition rebase_conflict (_ : list event) (c : call) : outcome :=
  match c with
  | git_stash => Returns "Saved working directory and index state WIP on topic"
  | git_rebase _ => Raises (mkExn E_GitCommandError "conflict")
  | _ => Returns ""
  end.

Definition args0 : Args.t :=
  Args.mk false false None (Some "move") "master" false "origin" None [].

Definition args_files : Args.t :=
  Args.mk false false None (Some "move") "master" false "origin" None ["a.txt"].

(** An instance as [__init__] makes it in [repo0], and with [pull=True]. *)
Definition scoper0 : TeleScope :=
  mkTeleScope "topic" "master" (Remote "origin") (Some "Ann") (Some "ann@example.org")
              (Some "move") false false false false.

Definition scoper_pull : TeleScope :=
  mkTeleScope "topic" "master" (Remote "origin") (Some "Ann") (Some "ann@example.org")
              (Some "move") false false false true.

Definition start : State := mkState scoper0 repo0 [].
Definition start_pull : State := mkState scoper_pull repo0 [].

(** A repository object of a class derived from [git.Repo]. *)
Definition repo_subclass : Repo :=
  mkRepo (subclass_of_git_Repo "MyRepo") "/work" ["master"; "topic"] ["origin"]
         (Some "topic") [] [] [] [] true [].

(** The states of the full run: after the stash, and at the end. *)
Definition stashed : State :=
  Eval vm_compute in snd (stashChanges all_fine start).

Definition finished : State :=
  Eval vm_compute in snd (workflow all_fine abspath None start).

(** The states in which the run with the rejected push and the run with
    the unreachable remote end. *)
Definition push_ignored : State :=
  Eval vm_compute in snd (workflow push_rejected abspath None start).

Definition push_failed : State :=
  Eval vm_compute in snd (workflow push_unreachable abspath None start).

(** An instance made in a repository without configured identity, no name
    and no email given. *)
Definition scoper_anonymous : TeleScope :=
  mkTeleScope "topic" "master" py_None None None (Some "move") false false false false.

Definition anonymous_start : State :=
  Eval vm_compute in
    mkState scoper_anonymous
            (snd (__init__ "master" py_None None None (Some "move") false false false
                           repo_anonymous))
            [].

(** Instances with a plain name as remote, with an unknown name, and with
    the [noclear] and the [norebase] flag. *)
Definition start_named : State :=
  mkState (mkTeleScope "topic" "master" (py_str "origin") (Some "Ann")
                       (Some "ann@example.org") (Some "move") false false false false)
          repo0 [].

Definition start_backup : State :=
  mkState (mkTeleScope "topic" "master" (py_str "backup") (Some "Ann")
                       (Some "ann@example.org") (Some "move") false false false false)
          repo0 [].

Definition start_noclear : State :=
  mkState (mkTeleScope "topic" "master" (Remote "origin") (Some "Ann")
                       (Some "ann@example.org") (Some "move") false true false false)
          repo0 [].

Definition start_norebase : State :=
  mkState (mkTeleScope "topic" "master" (Remote "origin") (Some "Ann")
                       (Some "ann@example.org") (Some "move") true false false false)
          repo0 [].

(** An instance with the name [sort] as remote, and the command line
    [-r sort]. *)
Definition start_sort : State :=
  mkState (mkTeleScope "topic" "master" (py_str "sort") (Some "Ann")
                       (Some "ann@example.org") (Some "move") false false false false)
          repo0 [].

Definition args_sort : Args.t :=
  Args.mk false false None (Some "move") "master" false "sort" None [].

(** The repository [repo0] when the remote has one commit more than
    [topic], and an instance in it with the remote given by name. *)
Definition start_behind : State :=
  mkState (mkTeleScope "topic" "master" (py_str "origin") (Some "Ann")
                       (Some "ann@example.org") (Some "move") false false false true)
          (mkRepo git_Repo "/work" ["master"; "topic"] ["origin"] (Some "topic")
                  [("user", "name", "Ann"); ("user", "email", "ann@example.org")]
                  [] [] [mkCommit (Some "origin/topic") (Some "Bob") (Some "fix")] true [])
          [].

(** The state of the full run when [applyChanges] has returned. *)
Definition applied : State :=
  Eval vm_compute in snd (applyChanges all_fine abspath None stashed).

(** The command line [-r None]. *)
Definition args_none : Args.t :=
  Args.mk false false None (Some "move") "master" false "None" None [].

End Examples.

(* ===================================================================== *)
(** ** Vocabulary for the run of a method *)
(* ===================================================================== *)

(** The exception every [raise BranchError(...)] ends in. *)
Definition BranchError_failure : exn :=
  mkExn E_AttributeError "'super' object has no attribute '_BranchError__init'".

Definition no_active_branch : exn :=
  mkExn E_AttributeError "TeleScope instance has no attribute 'active_branch'".

Definition caught_by_switchBranch (ex : exn) : bool :=
  matches (except E_IndexError) ex || matches (except E_TypeError) ex
  || matches (except E_GitCommandError) ex.

(** What [except git.GitCommandError as ex: raise C(prefix + ex.message)]
    makes of an exception that reaches it. *)
Definition rewrapped (cls : exn_class) (prefix : string) (ex : exn) : exn :=
  if matches (except E_GitCommandError) ex
  then mkExn cls (prefix ++ exn_message ex)
  else ex.

(** The state after a read, after a git command, after a write to stderr. *)
Definition logged (c : call) (o : outcome) (st : State) : State :=
  mkState (self st) (record c o (repo st)) (stderr st).

Definition executed (c : call) (o : outcome) (st : State) : State :=
  mkState (self st) (record c o (effect c o (repo st))) (stderr st).

Definition written (s : string) (st : State) : State :=
  mkState (self st) (repo st) (s :: stderr st).

(** Lines 129-132: the files to add, and the state once they are chosen. *)
Definition staged_files (files : option (list string)) (st : State) : list string :=
  match files with
  | None => [working_dir (repo st)]
  | Some fs => fs
  end.

Definition staged_state (files : option (list string)) (st : State) : State :=
  match files with
  | None => logged get_working_dir (Returns (working_dir (repo st))) st
  | Some _ => mkState (set_reapply true (self st)) (repo st) (stderr st)
  end.

Definition commit_call (t : TeleScope) : call :=
  git_commit (authorstring (user t) (email t)) (message t).

(** Two repositories that differ at most in their logs. *)
Definition same_but_log (r r' : Repo) : Prop :=
  repo_class r' = repo_class r /\ working_dir r' = working_dir r /\
  heads r' = heads r /\ remotes r' = remotes r /\ HEAD r' = HEAD r /\
  config r' = config r /\ stash_list r' = stash_list r /\ commits r' = commits r /\
  incoming r' = incoming r /\ stops_on_conflict r' = stops_on_conflict r.

(** Kinds of calls. *)
Definition is_git_add (c : call) : bool :=
  match c with
  | git_add _ => true
  | _ => false
  end.

Definition is_switch (c : call) : bool :=
  match c with
  | heads_getitem _ | checkout _ => true
  | _ => false
  end.

Definition is_stash_drop (c : call) : bool :=
  match c with
  | git_stash_drop => true
  | _ => false
  end.

Definition is_pull (c : call) : bool :=
  match c with
  | remote_pull _ => true
  | _ => false
  end.

Definition is_config_read (section opt : string) (c : call) : bool :=
  match c with
  | has_option s o | get_value s o => String.eqb s section && String.eqb o opt
  | _ => false
  end.

Definition is_working_dir (c : call) : bool :=
  match c with
  | get_working_dir => true
  | _ => false
  end.

(** The calls [applyChanges] makes, and those [switchAndRebase] makes. *)
Definition in_applyChanges (c : call) : bool :=
  match c with
  | heads_getitem _ | checkout _ | git_stash_apply | get_working_dir | git_add _
  | git_commit _ _ | remote_push _ | head_reset => true
  | _ => false
  end.

Definition in_switchAndRebase (c : call) : bool :=
  match c with
  | heads_getitem _ | checkout _ | git_rebase _ | git_stash_drop => true
  | _ => false
  end.

(** Calls the workflow makes nowhere. *)
Definition never_called (c : call) : bool :=
  match c with
  | remote_pull _ | checkout_force => true
  | _ => false
  end.

(** The calls [applyChanges] makes before the commit. *)
Definition before_commit (c : call) : bool :=
  match c with
  | heads_getitem _ | checkout _ | git_stash_apply | get_working_dir | git_add _ => true
  | _ => false
  end.

Arguments is_git_add c : simpl nomatch.
Arguments is_switch c : simpl nomatch.
Arguments is_stash_drop c : simpl nomatch.
Arguments is_pull c : simpl nomatch.
Arguments is_working_dir c : simpl nomatch.
Arguments in_applyChanges c : simpl nomatch.
Arguments in_switchAndRebase c : simpl nomatch.
Arguments never_called c : simpl nomatch.
Arguments before_commit c : simpl nomatch.

(** More kinds of calls and of outcomes. *)
Definition is_push (c : call) : bool :=
  match c with
  | remote_push _ => true
  | _ => false
  end.

Definition is_rebase (c : call) : bool :=
  match c with
  | git_rebase _ => true
  | _ => false
  end.

Definition is_remotes_lookup (c : call) : bool :=
  match c with
  | remotes_getitem _ => true
  | _ => false
  end.

(** The reads [__init__] makes. *)
Definition in_init (c : call) : bool :=
  match c with
  | active_branch_name | config_reader | has_option _ _ | get_value _ _ => true
  | _ => false
  end.

(** The calls [pullFromRemote] makes. *)
Definition in_pullFromRemote (c : call) : bool :=
  match c with
  | remotes_getitem _ | remote_pull _ => true
  | _ => false
  end.

Definition returned (o : outcome) : bool :=
  match o with
  | Returns _ => true
  | Raises _ => false
  end.

Arguments is_push c : simpl nomatch.
Arguments is_rebase c : simpl nomatch.
Arguments is_remotes_lookup c : simpl nomatch.
Arguments in_init c : simpl nomatch.
Arguments in_pullFromRemote c : simpl nomatch.
Arguments returned o : simpl nomatch.

(** How often a character occurs in a string. *)
Fixpoint count_char (c : ascii) (s : string) : nat :=
  match s with
  | EmptyString => 0
  | String x s' => (if Ascii.eqb x c then 1 else 0) + count_char c s'
  end.

(** The notices of lines 176 and 185. *)
Definition norebase_notice : string := "--norebase option set, skipping rebase.".
Definition noclear_notice : string := "--noclear option set, keeping stash.".

Section Summaries.

Variable git : list event -> call -> outcome.

(** Lines 160-161. *)
Definition after_push (st : State) : result unit * State :=
  if reapply (self st) then backoutChanges git st else (Ok tt, st).

(** Lines 183-187. *)
Definition drop_step (noclear : bool) (st : State) : result unit * State :=
  if noclear then (Ok tt, written "--noclear option set, keeping stash." st)
  else
    match git (log (repo st)) git_stash_drop with
    | Returns s => (Ok tt, executed git_stash_drop (Returns s) st)
    | Raises e => (Raise e, executed git_stash_drop (Raises e) st)
    end.

End Summaries.

(* ===================================================================== *)
(** ** Each method, run: what it does as one expression *)
(* ===================================================================== *)

Local Open Scope list_scope.
Unset Implicit Arguments.

Lemma same_but_log_refl r : same_but_log r r.
Proof. unfold same_but_log; tauto. Qed.

Lemma same_but_log_trans r1 r2 r3 :
  same_but_log r1 r2 -> same_but_log r2 r3 -> same_but_log r1 r3.
Proof. unfold same_but_log; intuition congruence. Qed.

Lemma same_but_log_record c o r : same_but_log r (record c o r).
Proof. unfold same_but_log; cbn; tauto. Qed.

Section Runs.

Variable git : list event -> call -> outcome.
Variable abspath : string -> string.

Lemma stashChanges_run st :
  stashChanges git st =
  match git (log (repo st)) git_stash with
  | Returns s =>
      (if String.eqb s No_local_changes_to_save
       then Raise (mkExn E_StashError s) else Ok tt,
       executed git_stash (Returns s) st)
  | Raises e => (Raise (rewrapped E_StashError "" e), executed git_stash (Raises e) st)
  end.
Proof.
  unfold stashChanges, try_except, on_repo, bind, exec, executed, rewrapped.
  destruct (git _ _) as [s|e]; cbn.
  - destruct (String.eqb s No_local_changes_to_save); reflexivity.
  - destruct (exn_class_eqb (exn_cls e) E_GitCommandError); reflexivity.
Qed.

Lemma switchBranch_run b st :
  switchBranch git b st =
  if list_attribute b then
    (Raise (no_method "checkout"),
     logged (heads_getitem b) (Returns (attribute_repr b)) st)
  else if mem b (heads (repo st)) then
    let st1 := logged (heads_getitem b) (Returns b) st in
    match git (log (repo st1)) (checkout b) with
    | Returns s => (Ok tt, executed (checkout b) (Returns s) st1)
    | Raises e =>
        (Raise (if caught_by_switchBranch e then BranchError_failure else e),
         executed (checkout b) (Raises e) st1)
    end
  else
    (Raise BranchError_failure,
     logged (heads_getitem b)
            (Raises (mkExn E_IndexError ("No item found with id " ++ b)%string)) st).
Proof.
  unfold switchBranch, try_except, on_repo, bind, repo_heads_getitem,
    IterableList_getitem, head_checkout.
  destruct (list_attribute b); [reflexivity|].
  unfold bind, read, exec, logged, executed.
  cbn [repo self stderr fst snd].
  destruct (mem b (heads (repo st))); cbn.
  - destruct (git _ _) as [s|e]; cbn; [reflexivity|].
    unfold caught_by_switchBranch. cbn.
    destruct (exn_class_eqb (exn_cls e) E_IndexError); [reflexivity|].
    destruct (exn_class_eqb (exn_cls e) E_TypeError); [reflexivity|].
    destruct (exn_class_eqb (exn_cls e) E_GitCommandError); reflexivity.
  - reflexivity.
Qed.

Lemma backoutChanges_run st :
  backoutChanges git st =
  match git (log (repo st)) head_reset with
  | Returns s => (Raise no_active_branch, executed head_reset (Returns s) st)
  | Raises e => (Raise e, executed head_reset (Raises e) st)
  end.
Proof.
  unfold backoutChanges, on_repo, bind, exec, executed.
  destruct (git _ _); reflexivity.
Qed.

Lemma applyChanges_run files st :
  applyChanges git abspath files st =
  match switchBranch git (upstream (self st)) st with
  | (Raise e, st1) => (Raise e, st1)
  | (Ok _, st1) =>
    match git (log (repo st1)) git_stash_apply with
    | Raises e => (Raise (rewrapped E_StashError "" e), executed git_stash_apply (Raises e) st1)
    | Returns s =>
      let st2 := executed git_stash_apply (Returns s) st1 in
      match add_loop git abspath (staged_files files st2) (staged_state files st2) with
      | (Raise e, st3) => (Raise (rewrapped E_CommitError "" e), st3)
      | (Ok _, st3) =>
        match git (log (repo st3)) (commit_call (self st3)) with
        | Raises e =>
            (Raise (rewrapped E_CommitError "" e),
             executed (commit_call (self st3)) (Raises e) st3)
        | Returns s' =>
          let st4 := executed (commit_call (self st3)) (Returns s') st3 in
          match remote (self st4) with
          | py_None => after_push git st4
          | py_str _ =>
              (Raise (mkExn E_AttributeError "'str' object has no attribute 'push'"), st4)
          | list_attr _ => (Raise (no_method "push"), st4)
          | Remote name =>
            match git (log (repo st4)) (remote_push name) with
            | Raises e =>
                (Raise (rewrapped E_RemoteError ("Problem with push:" ++ nl) e),
                 executed (remote_push name) (Raises e) st4)
            | Returns s'' => after_push git (executed (remote_push name) (Returns s'') st4)
            end
          end
        end
      end
    end
  end.
Proof.
  unfold applyChanges.
  unfold bind at 1. cbn [get].
  unfold bind at 1. unfold try_except at 1.
  destruct (switchBranch git (upstream (self st)) st) as [[[]|e] st1]; cbn [handle matches];
    [|reflexivity].
  unfold bind at 1. unfold try_except at 1. unfold on_repo at 1. unfold exec at 1.
  destruct (git (log (repo st1)) git_stash_apply) as [s|e]; cbn [outcome_result handle].
  2:{ unfold rewrapped, executed. cbn.
      destruct (exn_class_eqb (exn_cls e) E_GitCommandError); reflexivity. }
  cbv zeta.
  assert (Hfiles :
    match files with
    | Some fs => (_ <- on_self (set_reapply true);; ret fs)
    | None => (wd <- on_repo repo_working_dir;; ret [wd])
    end (executed git_stash_apply (Returns s) st1)
    = (Ok (staged_files files (executed git_stash_apply (Returns s) st1)),
       staged_state files (executed git_stash_apply (Returns s) st1))).
  { destruct files; reflexivity. }
  unfold bind at 1. 
  change {| self := self st1;
            repo := record git_stash_apply (Returns s)
                           (effect git_stash_apply (Returns s) (repo st1));
            stderr := stderr st1 |}
    with (executed git_stash_apply (Returns s) st1).
  rewrite Hfiles. clear Hfiles.
  set (st2 := executed git_stash_apply (Returns s) st1).
  unfold bind at 1. unfold try_except at 1.
  destruct (add_loop git abspath (staged_files files st2) (staged_state files st2))
    as [[[]|e] st3]; cbn [handle].
  2:{ unfold rewrapped. cbn.
      destruct (exn_class_eqb (exn_cls e) E_GitCommandError); reflexivity. }
  unfold bind at 1. cbn [get].
  unfold bind at 1. unfold try_except at 1. unfold on_repo at 1. unfold exec at 1.
  unfold commit_call. cbn [self repo stderr].
  destruct (git (log (repo st3)) _) as [s'|e]; cbn [outcome_result handle].
  2:{ unfold rewrapped, executed. cbn.
      destruct (exn_class_eqb (exn_cls e) E_GitCommandError); reflexivity. }
  unfold executed at 1. cbn [self].
  unfold after_push, executed. cbn [self repo stderr].
  destruct (remote (self st3)) as [|nm|nm|nm]; cbn [negb remote_push_call].
  - unfold bind at 1. cbn [ret]. unfold bind at 1. cbn [get self].
    destruct (reapply (self st3)); reflexivity.
  - unfold bind at 1. unfold bind at 1. unfold try_except at 1. cbn. reflexivity.
  - unfold bind at 1. unfold bind at 1. unfold try_except at 1.
    unfold on_repo at 1. unfold exec at 1. cbn [repo log record self stderr].
    destruct (git _ (remote_push nm)) as [s''|e]; cbn [outcome_result handle].
    + cbn [ret]. unfold bind at 1. cbn [get self].
      destruct (reapply (self st3)); reflexivity.
    + unfold rewrapped. cbn.
      destruct (exn_class_eqb (exn_cls e) E_GitCommandError); reflexivity.
  - unfold bind at 1. unfold bind at 1. unfold try_except at 1. cbn. reflexivity.
Qed.


Lemma switchAndRebase_run st :
  switchAndRebase git st =
  match switchBranch git (thisbranch (self st)) st with
  | (Raise e, st1) => (Raise e, st1)
  | (Ok _, st1) =>
    if norebase (self st) then
      drop_step git (noclear (self st)) (written "--norebase option set, skipping rebase." st1)
    else
      match git (log (repo st1)) (git_rebase (upstream (self st))) with
      | Raises e =>
          (Raise (rewrapped E_ConflictError ("Problem in rebase:" ++ nl) e),
           executed (git_rebase (upstream (self st))) (Raises e) st1)
      | Returns s =>
          drop_step git (noclear (self st))
                    (executed (git_rebase (upstream (self st))) (Returns s) st1)
      end
  end.
Proof.
  unfold switchAndRebase.
  unfold bind at 1. cbn [get].
  unfold bind at 1. unfold try_except at 1.
  destruct (switchBranch git (thisbranch (self st)) st) as [[[]|e] st1]; cbn [handle matches];
    [|reflexivity].
  unfold drop_step.
  destruct (norebase (self st)).
  - unfold bind at 1. unfold sys_stderr_write at 1. cbn [modify].
    destruct (noclear (self st)).
    + reflexivity.
    + unfold bind, on_repo, exec, executed, written. cbn [repo self stderr].
      destruct (git _ git_stash_drop); reflexivity.
  - unfold bind at 1. unfold bind at 1. unfold try_except at 1.
    unfold on_repo at 1. unfold exec at 1.
    destruct (git (log (repo st1)) _) as [s|e]; cbn [outcome_result handle].
    + cbn [ret]. destruct (noclear (self st)).
      * reflexivity.
      * unfold bind, on_repo, exec, executed. cbn [repo self stderr].
        destruct (git _ git_stash_drop); reflexivity.
    + unfold rewrapped, executed. cbn.
      destruct (exn_class_eqb (exn_cls e) E_GitCommandError); reflexivity.
Qed.

Lemma add_loop_cons f fs st :
  add_loop git abspath (f :: fs) st =
  match git (log (repo st)) (git_add (abspath f)) with
  | Returns s =>
      add_loop git abspath fs
        (mkState (self st) (record (git_add (abspath f)) (Returns s) (repo st)) (stderr st))
  | Raises e =>
      (Raise e,
       mkState (self st) (record (git_add (abspath f)) (Raises e) (repo st)) (stderr st))
  end.
Proof.
  unfold add_loop; cbn [for_each]. unfold bind, on_repo, exec.
  destruct (git (log (repo st)) (git_add (abspath f))); reflexivity.
Qed.

Lemma add_loop_spec files : forall st,
  exists adds,
    log (repo (snd (add_loop git abspath files st))) = adds ++ log (repo st) /\
    forallb (fun ev => is_git_add (fst ev)) adds = true /\
    same_but_log (repo st) (repo (snd (add_loop git abspath files st))) /\
    self (snd (add_loop git abspath files st)) = self st /\
    stderr (snd (add_loop git abspath files st)) = stderr st /\
    match fst (add_loop git abspath files st) with
    | Ok _ => map fst adds = rev (map (fun f => git_add (abspath f)) files)
    | Raise e =>
        exists f rest, In f files /\ adds = (git_add (abspath f), Raises e) :: rest
    end.
Proof.
  induction files as [|f fs IH]; intros st.
  - exists []. cbn. repeat split; reflexivity.
  - rewrite add_loop_cons.
    destruct (git (log (repo st)) (git_add (abspath f))) as [s|e].
    + destruct (IH (mkState (self st) (record (git_add (abspath f)) (Returns s) (repo st))
                            (stderr st)))
        as (adds & Hlog & Hall & Hsame & Hself & Herr & Hres).
      cbn [self repo stderr] in *.
      exists (adds ++ [(git_add (abspath f), Returns s)]).
      split; [rewrite Hlog, <- app_assoc; reflexivity|].
      split; [rewrite forallb_app; apply andb_true_intro; split; [exact Hall|reflexivity]|].
      split; [eapply same_but_log_trans; [apply same_but_log_record|exact Hsame]|].
      split; [exact Hself|]. split; [exact Herr|].
      revert Hres; destruct (fst (add_loop git abspath fs _)); intros Hres.
      * rewrite map_app, Hres. reflexivity.
      * destruct Hres as (f' & rest & Hf' & ->).
        exists f', (rest ++ [(git_add (abspath f), Returns s)]).
        split; [right; exact Hf'|reflexivity].
    + exists [(git_add (abspath f), Raises e)]. cbn [fst snd app].
      split; [reflexivity|]. split; [reflexivity|].
      split; [apply same_but_log_record|]. split; [reflexivity|]. split; [reflexivity|].
      exists f, []. split; [left; reflexivity|reflexivity].
Qed.

Lemma switchBranch_spec b st :
  exists evs,
    log (repo (snd (switchBranch git b st))) = evs ++ log (repo st) /\
    forallb (fun ev => is_switch (fst ev)) evs = true /\
    self (snd (switchBranch git b st)) = self st /\
    stderr (snd (switchBranch git b st)) = stderr st /\
    stash_list (repo (snd (switchBranch git b st))) = stash_list (repo st) /\
    commits (repo (snd (switchBranch git b st))) = commits (repo st) /\
    heads (repo (snd (switchBranch git b st))) = heads (repo st) /\
    match fst (switchBranch git b st) with
    | Ok _ => HEAD (repo (snd (switchBranch git b st))) = Some b /\
              exists s, evs = [(checkout b, Returns s); (heads_getitem b, Returns b)]
    | Raise _ =>
        (exists c e rest, evs = (c, Raises e) :: rest) \/
        (list_attribute b = true /\
         evs = [(heads_getitem b, Returns (attribute_repr b))] /\
         fst (switchBranch git b st) = Raise (no_method "checkout"))
    end.
Proof.
  rewrite switchBranch_run.
  destruct (list_attribute b); [eexists [_]; cbn; eauto 15|].
  destruct (mem b (heads (repo st))); cbv zeta.
  - destruct (git _ (checkout b)) as [s|e]; cbn.
    + exists [(checkout b, Returns s); (heads_getitem b, Returns b)]. cbn. eauto 12.
    + exists [(checkout b, Raises e); (heads_getitem b, Returns b)]. cbn. eauto 15.
  - eexists [_]. cbn. eauto 15.
Qed.

End Runs.

Lemma forallb_weaken {A} (p q : A -> bool) (l : list A) :
  (forall x, p x = true -> q x = true) -> forallb p l = true -> forallb q l = true.
Proof.
  intros Hpq. induction l as [|x l IH]; cbn; [reflexivity|].
  intros H. apply andb_true_iff in H as [Hx Hl]. rewrite (Hpq x Hx), (IH Hl). reflexivity.
Qed.

Lemma forallb_tl {A} (p : A -> bool) (l : list A) :
  forallb p l = true -> forallb p (tl l) = true.
Proof.
  destruct l as [|x l]; cbn; [reflexivity|].
  intros H. apply andb_true_iff in H as [_ H]. exact H.
Qed.

Lemma forallb_not_In {A} (p : A -> bool) (l : list A) (x : A) :
  forallb p l = true -> p x = false -> ~ In x l.
Proof.
  intros Hall Hx Hin. rewrite (proj1 (forallb_forall p l) Hall x Hin) in Hx. discriminate Hx.
Qed.

Lemma log_effect c o r : log (effect c o r) = log r.
Proof.
  destruct o as [s|e]; destruct c; cbn; try reflexivity.
  - destruct (String.eqb s No_local_changes_to_save); reflexivity.
  - destruct (stops_on_conflict r); reflexivity.
Qed.

Lemma log_executed c o st : log (repo (executed c o st)) = (c, o) :: log (repo st).
Proof. cbn. rewrite log_effect. reflexivity. Qed.

Lemma set_reapply_same t : set_reapply (reapply t) t = t.
Proof. destruct t; reflexivity. Qed.

(** The events a log gained, read off a log written as a chain of conses
    and appends over the old log. *)
Ltac prefix_of l base :=
  lazymatch l with
  | base => constr:(@nil event)
  | ?x ++ base => constr:(x)
  | ?a :: ?l' => let p := prefix_of l' base in constr:(a :: p)
  | ?x ++ ?l' => let p := prefix_of l' base in constr:(x ++ p)
  end.

Ltac new_events :=
  lazymatch goal with
  | |- exists evs, ?L = evs ++ ?base /\ _ =>
      let p := prefix_of L base in
      exists p; split; [repeat (cbn [app] || rewrite <- app_assoc); reflexivity|]
  end.

(** An event of one kind cannot be among events that are all of another. *)
Ltac absurd_In :=
  match goal with
  | Hall : forallb ?p ?l = true, Hin : In ?x ?l |- _ =>
      let E := fresh in
      pose proof (proj1 (forallb_forall p l) Hall x Hin) as E; cbn in E; discriminate E
  end.

(** All events of kind [p] are of kind [q], when [p] implies [q] call by
    call. *)
Ltac weaken_all q :=
  repeat match goal with
         | H : forallb ?p ?l = true |- _ =>
             lazymatch p with
             | q => fail
             | _ => idtac
             end;
             apply (forallb_weaken p q l) in H; [| intros [[] ?]; cbn; congruence ]
         end.

Ltac the_events H :=
  lazymatch type of H with
  | ?L = ?evs ++ ?base =>
      let p := prefix_of L base in
      let E := fresh "E" in
      assert (E : evs = p)
        by (apply (app_inv_tail base); rewrite <- H;
            repeat (cbn [app] || rewrite <- app_assoc); reflexivity);
      clear H; subst evs
  end.

Ltac split_In H :=
  repeat (cbn [In] in H || rewrite in_app_iff in H);
  repeat match type of H with
         | _ \/ _ => destruct H as [H|H]
         end;
  try contradiction; try discriminate H; try absurd_In.

Section Properties.

Variable git : list event -> call -> outcome.
Variable abspath : string -> string.

(** The run of [applyChanges], case by case: a failed switch, a failed
    [stash apply], a failed [add], a failed commit, then the push and the
    back-out. *)
Ltac applyChanges_cases files st :=
  rewrite (applyChanges_run git abspath files st);
  destruct (switchBranch_spec git (upstream (self st)) st)
    as (sw & Hsw & Hsw_all & Hself1 & Herr1 & Hstash1 & Hcommits1 & Hheads1 & Hres1);
  destruct (switchBranch git (upstream (self st)) st) as [[[]|e1] st1];
  cbn [fst snd] in Hsw, Hself1, Herr1, Hstash1, Hcommits1, Hheads1, Hres1;
  [ destruct Hres1 as (HHEAD1 & s1 & Hsw_eq);
    destruct (git (log (repo st1)) git_stash_apply) as [s2|e2] eqn:Happly;
    [ cbv zeta;
      destruct (add_loop_spec git abspath
                  (staged_files files (executed git_stash_apply (Returns s2) st1))
                  (staged_state files (executed git_stash_apply (Returns s2) st1)))
        as (adds & Hadds & Hadds_all & Hsame3 & Hself3 & Herr3 & Hres3);
      destruct Hsame3 as (_ & _ & _ & _ & HHEAD3 & _ & Hstash3 & Hcommits3 & _ & _);
      assert (Hlog3 : exists wd,
                 log (repo (snd (add_loop git abspath
                    (staged_files files (executed git_stash_apply (Returns s2) st1))
                    (staged_state files (executed git_stash_apply (Returns s2) st1)))))
                 = adds ++ wd ++ (git_stash_apply, Returns s2) :: sw ++ log (repo st)
                 /\ forallb (fun ev => is_working_dir (fst ev)) wd = true)
        by (destruct files; cbn in Hadds; rewrite Hsw in Hadds;
            [exists []|eexists [_]]; (split; [exact Hadds|reflexivity]));
      destruct Hlog3 as (wd & Hlog3 & Hwd); clear Hadds;
      assert (Hself3' : self (snd (add_loop git abspath
                    (staged_files files (executed git_stash_apply (Returns s2) st1))
                    (staged_state files (executed git_stash_apply (Returns s2) st1))))
                 = match files with
                   | None => self st
                   | Some _ => set_reapply true (self st)
                   end)
        by (rewrite Hself3; destruct files; cbn; rewrite Hself1; reflexivity);
      clear Hself3;
      replace (stash_list (repo (staged_state files (executed git_stash_apply (Returns s2) st1))))
        with (stash_list (repo st)) in Hstash3 by (destruct files; cbn; congruence);
      replace (commits (repo (staged_state files (executed git_stash_apply (Returns s2) st1))))
        with (commits (repo st)) in Hcommits3 by (destruct files; cbn; congruence);
      replace (HEAD (repo (staged_state files (executed git_stash_apply (Returns s2) st1))))
        with (Some (upstream (self st))) in HHEAD3 by (destruct files; cbn; congruence);
      destruct (add_loop git abspath
                  (staged_files files (executed git_stash_apply (Returns s2) st1))
                  (staged_state files (executed git_stash_apply (Returns s2) st1)))
        as [[[]|e3] st3];
      cbn [fst snd] in Hlog3, Hself3', Herr3, Hres3, Hstash3, Hcommits3, HHEAD3;
      [ unfold commit_call;
        destruct (git (log (repo st3)) _) as [s4|e4] eqn:Hcommit;
        [ cbv zeta; unfold after_push; cbn [self executed];
          destruct (remote (self st3)) as [|nm|nm|nm] eqn:Hremote;
          [ | | destruct (git _ (remote_push nm)) as [s5|e5] eqn:Hpush | ];
          try (destruct (reapply (self st3)) eqn:Hreapply;
               [ rewrite backoutChanges_run;
                 destruct (git _ head_reset) as [s6|e6] eqn:Hreset | ])
        | ]
      | destruct Hres3 as (f3 & rest3 & Hf3 & Hadds_eq) ]
    | ]
  | destruct Hres1 as [(c1 & e1' & rest1 & Hsw_eq)|(Hattr & Hsw_eq & Hex1)];
    [ | injection Hex1 as -> ] ];
  cbn [fst snd].

Lemma applyChanges_extends files st :
  exists evs,
    log (repo (snd (applyChanges git abspath files st))) = evs ++ log (repo st) /\
    forallb (fun ev => in_applyChanges (fst ev)) evs = true.
Proof.
  applyChanges_cases files st.
  all: cbn; rewrite ?Hlog3, ?Hsw; new_events.
  all: weaken_all (fun ev : event => in_applyChanges (fst ev)).
  all: cbn; rewrite ?forallb_app; cbn;
    repeat match goal with H : forallb _ _ = true |- _ => rewrite H end; reflexivity.
Qed.


Lemma applyChanges_frame files st :
  stash_list (repo (snd (applyChanges git abspath files st))) = stash_list (repo st) /\
  self (snd (applyChanges git abspath files st))
  = set_reapply (reapply (self (snd (applyChanges git abspath files st)))) (self st).
Proof.
  applyChanges_cases files st.
  all: cbn; rewrite ?Hself3'; split; try assumption.
  all: try (destruct files; cbn; try rewrite set_reapply_same; reflexivity).
  all: rewrite Hself1, set_reapply_same; reflexivity.
Qed.

Lemma applyChanges_ok files st evs :
  fst (applyChanges git abspath files st) = Ok tt ->
  log (repo (snd (applyChanges git abspath files st))) = evs ++ log (repo st) ->
  files = None /\
  (remote (self st) <> py_None ->
   exists n s rest, evs = (remote_push n, Returns s) :: rest).
Proof.
  applyChanges_cases files st; intros Hok Hevs; try discriminate Hok.
  all: cbn in Hevs; rewrite ?Hlog3, ?Hsw in Hevs; the_events Hevs.
  all: rewrite Hself3' in Hremote, Hreapply.
  all: destruct files; cbn in Hremote, Hreapply; try discriminate Hreapply.
  all: split; [reflexivity|]; intros Hrem.
  - contradiction.
  - eauto.
Qed.

Lemma applyChanges_partial_fails fs st :
  exists ex, fst (applyChanges git abspath (Some fs) st) = Raise ex.
Proof.
  destruct (fst (applyChanges git abspath (Some fs) st)) as [[]|ex] eqn:E; [|eauto].
  destruct (applyChanges_extends (Some fs) st) as (evs & Hevs & _).
  destruct (applyChanges_ok (Some fs) st evs E Hevs) as [H _]. discriminate H.
Qed.

Lemma applyChanges_failed_push files st evs n e :
  log (repo (snd (applyChanges git abspath files st))) = evs ++ log (repo st) ->
  In (remote_push n, Raises e) evs ->
  fst (applyChanges git abspath files st)
  = Raise (rewrapped E_RemoteError ("Problem with push:" ++ nl) e) /\
  exists a m s rest,
    evs = (remote_push n, Raises e) :: (git_commit a m, Returns s) :: rest /\
    commits (repo (snd (applyChanges git abspath files st)))
    = mkCommit (Some (upstream (self st))) a m :: commits (repo st).
Proof.
  applyChanges_cases files st; intros Hevs Hin.
  all: cbn in Hevs; rewrite ?Hlog3, ?Hsw in Hevs; the_events Hevs.
  all: split_In Hin.
  injection Hin as -> ->. split; [reflexivity|].
  do 4 eexists. split; [reflexivity|].
  cbn. rewrite HHEAD3, Hcommits3. reflexivity.
Qed.

Lemma applyChanges_commits files st evs :
  log (repo (snd (applyChanges git abspath files st))) = evs ++ log (repo st) ->
  (exists o, In (commit_call (self st), o) evs) \/
  (exists c e rest ex,
     evs = (c, Raises e) :: rest /\ before_commit c = true /\
     fst (applyChanges git abspath files st) = Raise ex) \/
  (list_attribute (upstream (self st)) = true /\
   evs = [(heads_getitem (upstream (self st)),
           Returns (attribute_repr (upstream (self st))))] /\
   fst (applyChanges git abspath files st) = Raise (no_method "checkout")).
Proof.
  applyChanges_cases files st; intros Hevs.
  all: cbn in Hevs; rewrite ?Hlog3, ?Hsw in Hevs; the_events Hevs.
  all: try (replace (self st3) with (set_reapply (reapply (self st3)) (self st))
             by (rewrite Hself3'; destruct files; cbn; rewrite ?set_reapply_same; reflexivity)).
  all: try (left; eexists; unfold commit_call; cbn; rewrite ?in_app_iff; cbn; now eauto 6).
  all: right.
  - left. subst adds. cbn [app]. do 4 eexists. split; [reflexivity|]. split; reflexivity.
  - left. do 4 eexists. split; [reflexivity|]. split; reflexivity.
  - left. subst sw. cbn in Hsw_all. apply andb_true_iff in Hsw_all as [Hc _].
    do 4 eexists. split; [reflexivity|]. split; [|reflexivity].
    destruct c1; cbn in Hc; try discriminate Hc; reflexivity.
  - right. subst sw. auto.
Qed.


(** The run of [switchAndRebase], case by case. *)
Ltac switchAndRebase_cases st :=
  rewrite (switchAndRebase_run git st);
  destruct (switchBranch_spec git (thisbranch (self st)) st)
    as (sw & Hsw & Hsw_all & Hself1 & Herr1 & Hstash1 & Hcommits1 & Hheads1 & Hres1);
  destruct (switchBranch git (thisbranch (self st)) st) as [[[]|e1] st1];
  cbn [fst snd] in Hsw, Hself1, Herr1, Hstash1, Hcommits1, Hheads1, Hres1;
  [ destruct Hres1 as (HHEAD1 & s1 & Hsw_eq);
    destruct (norebase (self st)) eqn:Hnorebase;
    [ | destruct (git (log (repo st1)) (git_rebase (upstream (self st))))
          as [s2|e2] eqn:Hrebase;
        [ | unfold executed; cbn [effect];
            destruct (stops_on_conflict (repo st1)) eqn:Hconfl ] ];
    try (unfold drop_step;
         destruct (noclear (self st)) eqn:Hnoclear;
         [ | destruct (git _ git_stash_drop) as [s3|e3] eqn:Hdrop ])
  | destruct Hres1 as [(c1 & e1' & rest1 & Hsw_eq)|(Hattr & Hsw_eq & Hex1)];
    [ | injection Hex1 as -> ] ];
  cbn [fst snd].

Lemma switchAndRebase_extends st :
  exists evs,
    log (repo (snd (switchAndRebase git st))) = evs ++ log (repo st) /\
    forallb (fun ev => in_switchAndRebase (fst ev)) evs = true.
Proof.
  switchAndRebase_cases st.
  all: cbn; rewrite ?Hsw; new_events.
  all: weaken_all (fun ev : event => in_switchAndRebase (fst ev)).
  all: cbn; rewrite ?forallb_app; cbn;
    repeat match goal with H : forallb _ _ = true |- _ => rewrite H end; reflexivity.
Qed.

Lemma switchAndRebase_drop st evs :
  log (repo (snd (switchAndRebase git st))) = evs ++ log (repo st) ->
  forallb (fun ev => negb (is_stash_drop (fst ev))) (tl evs) = true /\
  (forall o rest,
     evs = (git_stash_drop, o) :: rest ->
     noclear (self st) = false /\
     (norebase (self st) = false ->
      exists s, In (git_rebase (upstream (self st)), Returns s) rest)) /\
  (forall ex, fst (switchAndRebase git st) = Raise ex ->
     stash_list (repo (snd (switchAndRebase git st))) = stash_list (repo st)) /\
  (stash_list (repo (snd (switchAndRebase git st))) = stash_list (repo st) \/
   exists s rest,
     evs = (git_stash_drop, Returns s) :: rest /\
     fst (switchAndRebase git st) = Ok tt /\
     stash_list (repo (snd (switchAndRebase git st))) = tl (stash_list (repo st))).
Proof.
  switchAndRebase_cases st; intros Hevs.
  all: cbn in Hevs; rewrite ?Hsw in Hevs; the_events Hevs.
  all: weaken_all (fun ev : event => negb (is_stash_drop (fst ev))).
  all: cbn; rewrite ?Hstash1.
  all: split; [ try subst sw; cbn; try reflexivity | ].
  all: try (split; [ intros o rest Heq; try subst sw; try discriminate Heq | ]).
  all: try (split; [ intros ex Hex; try discriminate Hex; reflexivity | ]).
  all: try (left; reflexivity).
  all: try (right; do 2 eexists; repeat split; reflexivity).
  all: try (injection Heq as <- <-; split; [reflexivity|]; intros Hnr;
            try discriminate Hnr; eexists; cbn; eauto).
  - cbn in Hsw_all. apply andb_true_iff in Hsw_all as [_ H]. exact H.
  - cbn in Hsw_all. apply andb_true_iff in Hsw_all as [H _].
    injection Heq as -> _ _. discriminate H.
Qed.

Lemma stashChanges_ok st st1 :
  stashChanges git st = (Ok tt, st1) ->
  exists s,
    String.eqb s No_local_changes_to_save = false /\
    st1 = executed git_stash (Returns s) st /\
    log (repo st1) = (git_stash, Returns s) :: log (repo st) /\
    stash_list (repo st1) = length (log (repo st)) :: stash_list (repo st) /\
    commits (repo st1) = commits (repo st) /\
    self st1 = self st.
Proof.
  rewrite stashChanges_run.
  destruct (git (log (repo st)) git_stash) as [s|e]; [|discriminate].
  destruct (String.eqb s No_local_changes_to_save) eqn:Hs; [discriminate|].
  intros H. injection H as <-. exists s. cbn. rewrite Hs. cbn. auto 7.
Qed.


(** A push that returned is followed by the index reset of
    [backoutChanges], or by the return of [applyChanges]: whatever it
    returned, the method does not stop there. *)
Lemma applyChanges_returned_push files st evs n s :
  log (repo (snd (applyChanges git abspath files st))) = evs ++ log (repo st) ->
  In (remote_push n, Returns s) evs ->
  exists later a m s4 rest,
    evs = later ++ (remote_push n, Returns s) :: (git_commit a m, Returns s4) :: rest /\
    commits (repo (snd (applyChanges git abspath files st)))
    = mkCommit (Some (upstream (self st))) a m :: commits (repo st) /\
    (fst (applyChanges git abspath files st) = Ok tt \/ later <> []).
Proof.
  applyChanges_cases files st; intros Hevs Hin.
  all: cbn in Hevs; rewrite ?Hlog3, ?Hsw in Hevs; the_events Hevs.
  all: split_In Hin.
  all: injection Hin as -> ->.
  all: first [ exists []; do 4 eexists; split; [reflexivity|];
               split; [cbn; rewrite HHEAD3, Hcommits3; reflexivity|left; reflexivity]
             | eexists [_]; do 4 eexists; split; [reflexivity|];
               split; [cbn; rewrite HHEAD3, Hcommits3; reflexivity|right; discriminate] ].
Qed.

(** [switchAndRebase] always makes a call: the lookup of the branch to come
    back to. *)
Lemma switchAndRebase_starts st evs :
  log (repo (snd (switchAndRebase git st))) = evs ++ log (repo st) -> evs <> [].
Proof.
  switchAndRebase_cases st; intros Hevs.
  all: cbn in Hevs; rewrite ?Hsw in Hevs; the_events Hevs.
  all: try subst sw; discriminate.
Qed.

(** A run of [switchAndRebase] that returns without the [noclear] flag has
    dropped the latest stash entry, as its last call. *)
Lemma switchAndRebase_ok st evs :
  log (repo (snd (switchAndRebase git st))) = evs ++ log (repo st) ->
  fst (switchAndRebase git st) = Ok tt ->
  noclear (self st) = false ->
  (exists s rest, evs = (git_stash_drop, Returns s) :: rest) /\
  stash_list (repo (snd (switchAndRebase git st))) = tl (stash_list (repo st)).
Proof.
  switchAndRebase_cases st; intros Hevs Hok Hnc; try discriminate Hok; try discriminate Hnc.
  all: cbn in Hevs; rewrite ?Hsw in Hevs; the_events Hevs.
  all: cbn; rewrite Hstash1; split; [eauto|reflexivity].
Qed.

(** C1 (what the code does).  Once [stashChanges] has succeeded, in the
    run of [applyChanges] followed by [switchAndRebase], whatever git
    answers: the stash list is unchanged whenever the run ends in an
    exception; no call before the last one is a [stash drop]; when a
    [stash drop] is issued it is the last call, the [noclear] flag is off,
    the push returned (when a remote is set) and the rebase returned (when
    not skipped) before it; and the stash list changes only by that final
    drop.  But that the push returned is all the drop waits for: what the
    push returned is never looked at, so a run in which the remote rejected
    the push, and every later call returned, ends with the stash entry
    dropped. *)
Theorem stash_drop_ignores_push_result files st0 st1 r st2 :
  stashChanges git st0 = (Ok tt, st1) ->
  (_ <- applyChanges git abspath files ;; switchAndRebase git) st1 = (r, st2) ->
  stash_list (repo st1) = length (log (repo st0)) :: stash_list (repo st0) /\
  exists evs,
    log (repo st2) = evs ++ log (repo st1) /\
    (forall ex, r = Raise ex -> stash_list (repo st2) = stash_list (repo st1)) /\
    forallb (fun ev => negb (is_stash_drop (fst ev))) (tl evs) = true /\
    (forall o, In (git_stash_drop, o) evs ->
       exists rest,
         evs = (git_stash_drop, o) :: rest /\
         noclear (self st1) = false /\
         (remote (self st1) <> py_None ->
          exists n s, In (remote_push n, Returns s) rest) /\
         (norebase (self st1) = false ->
          exists s, In (git_rebase (upstream (self st1)), Returns s) rest)) /\
    (stash_list (repo st2) = stash_list (repo st1) \/
     exists s rest,
       evs = (git_stash_drop, Returns s) :: rest /\ r = Ok tt /\
       stash_list (repo st2) = stash_list (repo st0)) /\
    (forall n s,
       In (remote_push n, Returns s) evs -> push_error s = true ->
       r = Ok tt -> noclear (self st1) = false ->
       exists s' rest,
         evs = (git_stash_drop, Returns s') :: rest /\
         In (remote_push n, Returns s) rest /\
         stash_list (repo st2) = stash_list (repo st0)).
Proof.
  intros Hstash Hrun.
  destruct (stashChanges_ok st0 st1 Hstash) as (s0 & _ & _ & _ & Hst1 & _ & _).
  split; [exact Hst1|].
  unfold bind in Hrun.
  destruct (applyChanges_extends files st1) as (evs1 & Hevs1 & Hall1).
  destruct (applyChanges_frame files st1) as (Hstash_a & Hself_a).
  pose proof (applyChanges_ok files st1 evs1) as Hok.
  apply (forallb_weaken _ (fun ev : event => negb (is_stash_drop (fst ev)))) in Hall1;
    [| intros [[] ?]; cbn; congruence ].
  destruct (applyChanges git abspath files st1) as [[[]|ex1] sta]; cbn [fst snd] in *.
  - destruct (Hok eq_refl Hevs1) as [_ Hpushed]. clear Hok.
    destruct (switchAndRebase_extends sta) as (evs2 & Hevs2 & _).
    destruct (switchAndRebase_drop sta evs2 Hevs2) as (Htl & Hhead & Hfail & Hchange).
    pose proof (switchAndRebase_ok sta evs2 Hevs2) as Hdone.
    rewrite Hrun in Hevs2, Hfail, Hchange, Hdone. cbn [fst snd] in *.
    assert (Hnoclear : noclear (self sta) = noclear (self st1))
      by (rewrite Hself_a; reflexivity).
    assert (Hnorebase : norebase (self sta) = norebase (self st1))
      by (rewrite Hself_a; reflexivity).
    assert (Hupstream : upstream (self sta) = upstream (self st1))
      by (rewrite Hself_a; reflexivity).
    rewrite Hnoclear, Hnorebase, Hupstream in Hhead. rewrite Hstash_a in Hfail, Hchange.
    rewrite Hnoclear, Hstash_a, Hst1 in Hdone. cbn [tl] in Hdone.
    exists (evs2 ++ evs1).
    split; [rewrite Hevs2, Hevs1, app_assoc; reflexivity|].
    split; [exact Hfail|].
    split.
    { destruct evs2 as [|ev2 rest2]; cbn [tl app] in *.
      - apply forallb_tl. exact Hall1.
      - rewrite forallb_app, Htl, Hall1. reflexivity. }
    split.
    { intros o Hin. apply in_app_iff in Hin as [Hin|Hin].
      2:{ exfalso. revert Hin. apply (forallb_not_In _ _ _ Hall1). reflexivity. }
      destruct evs2 as [|ev2 rest2]; [contradiction|]. cbn [tl] in Htl.
      destruct Hin as [->|Hin].
      2:{ exfalso. revert Hin. apply (forallb_not_In _ _ _ Htl). reflexivity. }
      destruct (Hhead o rest2 eq_refl) as (Hnc & Hrebased).
      exists (rest2 ++ evs1). split; [reflexivity|]. split; [exact Hnc|]. split.
      - intros Hrem. destruct (Hpushed Hrem) as (n & s & rest & ->).
        exists n, s. apply in_app_iff. right. left. reflexivity.
      - intros Hnr. destruct (Hrebased Hnr) as (s & Hs). exists s.
        apply in_app_iff. left. exact Hs. }
    split.
    { destruct Hchange as [Hsame|(s & rest & -> & Hr & Hdropped)]; [left; exact Hsame|].
      right. exists s, (rest ++ evs1). split; [reflexivity|]. split; [exact Hr|].
      rewrite Hdropped, Hst1. reflexivity. }
    intros n s Hin _ Hr Hnc.
    destruct (Hdone Hr Hnc) as ((s' & rest & ->) & Hdropped).
    exists s', (rest ++ evs1). split; [reflexivity|]. split; [|exact Hdropped].
    cbn [app] in Hin. destruct Hin as [Hin|Hin]; [discriminate Hin|exact Hin].
  - injection Hrun as <- <-. exists evs1.
    split; [exact Hevs1|]. split; [intros _ _; exact Hstash_a|].
    split; [apply forallb_tl; exact Hall1|].
    split; [|split; [left; exact Hstash_a|intros n s _ _ Hr; discriminate Hr]].
    intros o Hin. exfalso. revert Hin. apply (forallb_not_In _ _ _ Hall1). reflexivity.
Qed.


(** C7 (what the code does).  A push can fail in two ways.  When the push
    raises, the workflow stops there: the failed push is the last call
    made, the run ends in the exception ([RemoteError] for a
    [GitCommandError], the exception itself otherwise), the commit just
    made on the upstream branch is still the latest commit, and the stash
    entry made by [stashChanges] is still on the stash list.  When the
    remote rejects the push, [remote.push()] returns a result that says so,
    and the result is not looked at: the workflow does not stop, a further
    call follows the push, and when the rest of the run goes through
    (without the [noclear] flag) the stash entry is dropped. *)
Theorem rejected_push_does_not_abort files st0 st1 r st2 :
  stashChanges git st0 = (Ok tt, st1) ->
  (_ <- applyChanges git abspath files ;; switchAndRebase git) st1 = (r, st2) ->
  exists evs,
    log (repo st2) = evs ++ log (repo st1) /\
    (forall n e,
       In (remote_push n, Raises e) evs ->
       r = Raise (rewrapped E_RemoteError ("Problem with push:" ++ nl) e) /\
       (exists a m s rest,
          evs = (remote_push n, Raises e) :: (git_commit a m, Returns s) :: rest /\
          commits (repo st2)
          = mkCommit (Some (upstream (self st1))) a m :: commits (repo st0)) /\
       stash_list (repo st2) = length (log (repo st0)) :: stash_list (repo st0)) /\
    (forall n s,
       In (remote_push n, Returns s) evs -> push_error s = true ->
       (exists later a m s4 rest,
          later <> [] /\
          evs = later ++ (remote_push n, Returns s) :: (git_commit a m, Returns s4) :: rest) /\
       (r = Ok tt -> noclear (self st1) = false ->
        stash_list (repo st2) = stash_list (repo st0))).
Proof.
  intros Hstash Hrun.
  destruct (stashChanges_ok st0 st1 Hstash) as (s0 & _ & _ & _ & Hst1 & Hcm1 & _).
  unfold bind in Hrun.
  destruct (applyChanges_extends files st1) as (evs1 & Hevs1 & Hall1).
  destruct (applyChanges_frame files st1) as (Hstash_a & Hself_a).
  pose proof (applyChanges_failed_push files st1 evs1) as Hpush.
  pose proof (applyChanges_returned_push files st1 evs1) as Hret.
  destruct (applyChanges git abspath files st1) as [[[]|ex1] sta]; cbn [fst snd] in *.
  - destruct (switchAndRebase_extends sta) as (evs2 & Hevs2 & Hall2).
    pose proof (switchAndRebase_starts sta evs2 Hevs2) as Hstart.
    pose proof (switchAndRebase_ok sta evs2 Hevs2) as Hdone.
    rewrite Hrun in Hevs2, Hdone. cbn [fst snd] in Hevs2, Hdone.
    assert (Hnoclear : noclear (self sta) = noclear (self st1))
      by (rewrite Hself_a; reflexivity).
    rewrite Hnoclear, Hstash_a, Hst1 in Hdone. cbn [tl] in Hdone.
    exists (evs2 ++ evs1). split; [rewrite Hevs2, Hevs1, app_assoc; reflexivity|].
    split.
    + intros n e Hin. exfalso. apply in_app_iff in Hin as [Hin|Hin].
      * revert Hin. apply (forallb_not_In _ _ _ Hall2). reflexivity.
      * destruct (Hpush n e Hevs1 Hin) as [H _]. discriminate H.
    + intros n s Hin _. split.
      * apply in_app_iff in Hin as [Hin|Hin].
        { exfalso. revert Hin. apply (forallb_not_In _ _ _ Hall2). reflexivity. }
        destruct (Hret n s Hevs1 Hin) as (later & a & m & s4 & rest & -> & _ & _).
        exists (evs2 ++ later), a, m, s4, rest.
        split; [|rewrite app_assoc; reflexivity].
        destruct evs2; [contradiction|discriminate].
      * intros Hr Hnc. exact (proj2 (Hdone Hr Hnc)).
  - injection Hrun as <- <-. exists evs1. split; [exact Hevs1|].
    split.
    + intros n e Hin.
      destruct (Hpush n e Hevs1 Hin) as (Hr & a & m & s & rest & Heq & Hcm).
      split; [exact Hr|]. split.
      * exists a, m, s, rest. split; [exact Heq|]. rewrite Hcm, Hcm1. reflexivity.
      * rewrite Hstash_a. exact Hst1.
    + intros n s Hin _. split; [|intros Hr; discriminate Hr].
      destruct (Hret n s Hevs1 Hin) as (later & a & m & s4 & rest & Heq & _ & [H|H]);
        [discriminate H|].
      exists later, a, m, s4, rest. split; [exact H|exact Heq].
Qed.

(** The workflow never pulls and never makes the forced checkout. *)
Lemma workflow_never_calls files st :
  exists evs,
    log (repo (snd (workflow git abspath files st))) = evs ++ log (repo st) /\
    forallb (fun ev => negb (never_called (fst ev))) evs = true.
Proof.
  unfold workflow, bind. rewrite stashChanges_run.
  set (o := git (log (repo st)) git_stash).
  assert (Hfail : forall ex : exn,
             exists evs,
               log (repo (snd (@Raise unit ex, executed git_stash o st)))
               = evs ++ log (repo st) /\
               forallb (fun ev => negb (never_called (fst ev))) evs = true).
  { intros ex. exists [(git_stash, o)]. cbn [snd]. rewrite log_executed.
    split; reflexivity. }
  destruct o as [s|e] eqn:Ho; [|apply Hfail].
  destruct (String.eqb s No_local_changes_to_save); [apply Hfail|].
  destruct (applyChanges_extends files (executed git_stash (Returns s) st))
    as (evs1 & Hevs1 & Hall1).
  destruct (switchAndRebase_extends
              (snd (applyChanges git abspath files (executed git_stash (Returns s) st))))
    as (evs2 & Hevs2 & Hall2).
  rewrite log_executed in Hevs1.
  weaken_all (fun ev : event => negb (never_called (fst ev))).
  destruct (applyChanges git abspath files _) as [[[]|ex1] sta]; cbn [fst snd] in *.
  - exists (evs2 ++ evs1 ++ [(git_stash, Returns s)]).
    rewrite Hevs2, Hevs1.
    split; [rewrite <- !app_assoc; reflexivity|].
    rewrite !forallb_app, Hall1, Hall2. reflexivity.
  - exists (evs1 ++ [(git_stash, Returns s)]).
    rewrite Hevs1.
    split; [rewrite <- !app_assoc; reflexivity|].
    rewrite !forallb_app, Hall1. reflexivity.
Qed.

(** C5 (what the code does).  Whatever the [pull] flag and the remote, no
    call of the workflow is a pull: [pullFromRemote] is never called. *)
Theorem workflow_never_pulls files st :
  exists evs,
    log (repo (snd (workflow git abspath files st))) = evs ++ log (repo st) /\
    forallb (fun ev => negb (is_pull (fst ev))) evs = true.
Proof.
  destruct (workflow_never_calls files st) as (evs & Hevs & Hall).
  exists evs. split; [exact Hevs|].
  revert Hall. apply forallb_weaken. intros [[] ?]; cbn; congruence.
Qed.

(** C6 (what the code does).  With a file selection the workflow never runs
    to its end, and the forced checkout that would discard the unstaged
    changes is never made: [backoutChanges] raises [AttributeError] right
    after the index reset. *)
Theorem partial_run_never_discards fs st :
  (exists ex, fst (workflow git abspath (Some fs) st) = Raise ex) /\
  exists evs,
    log (repo (snd (workflow git abspath (Some fs) st))) = evs ++ log (repo st) /\
    forallb (fun ev => match fst ev with checkout_force => false | _ => true end) evs = true.
Proof.
  split.
  - unfold workflow, bind.
    destruct (stashChanges git st) as [[[]|ex0] st1]; [|exists ex0; reflexivity].
    destruct (applyChanges_partial_fails fs st1) as (ex & Hex).
    destruct (applyChanges git abspath (Some fs) st1) as [[[]|ex1] sta];
      cbn [fst] in Hex; [discriminate Hex|exists ex1; reflexivity].
  - destruct (workflow_never_calls (Some fs) st) as (evs & Hevs & Hall).
    exists evs. split; [exact Hevs|].
    revert Hall. apply forallb_weaken. intros [[] ?]; cbn; congruence.
Qed.

(** C4, as the code has it.  The author string is ["Name <email>"] when
    both are present, the one that is present when only one is, and [None]
    when neither is.  No identity is checked: in every run of
    [applyChanges] the commit is handed to git with that author string,
    unless one of the calls before it (the branch switch, the stash apply,
    an add) raised, or the branch switch raised on its own, the name of the
    upstream branch being that of an attribute of the list of branches. *)
Theorem commit_author_string :
  (forall n e, authorstring (Some n) (Some e) = Some (n ++ " <" ++ e ++ ">")%string) /\
  (forall n, authorstring (Some n) None = Some n) /\
  (forall e, authorstring None (Some e) = Some e) /\
  authorstring None None = None /\
  forall files st,
    exists evs,
      log (repo (snd (applyChanges git abspath files st))) = evs ++ log (repo st) /\
      ((exists o,
          In (git_commit (authorstring (user (self st)) (email (self st)))
                         (message (self st)), o) evs) \/
       (exists c e rest ex,
          evs = (c, Raises e) :: rest /\ before_commit c = true /\
          fst (applyChanges git abspath files st) = Raise ex) \/
       (list_attribute (upstream (self st)) = true /\
        evs = [(heads_getitem (upstream (self st)),
                Returns (attribute_repr (upstream (self st))))] /\
        fst (applyChanges git abspath files st) = Raise (no_method "checkout"))).
Proof.
  repeat (split; [reflexivity|]).
  intros files st.
  destruct (applyChanges_extends files st) as (evs & Hevs & _).
  exists evs. split; [exact Hevs|].
  exact (applyChanges_commits files st evs Hevs).
Qed.

(** C8 (what the code does).  Switching to a branch the repository does
    not have ends in [AttributeError], raised while the [BranchError] is
    being created; nothing but the lookup of the branch was done, which
    raised [IndexError].  (For a name that the list of branches has as an
    attribute the lookup returns that attribute, and the [AttributeError]
    is that of the missing method [checkout]: no [BranchError] either.) *)
Theorem switchBranch_unknown_branch b st :
  mem b (heads (repo st)) = false ->
  exists ex,
    fst (switchBranch git b st) = Raise ex /\
    exn_cls ex = E_AttributeError /\
    exn_cls ex <> E_BranchError /\
    (list_attribute b = false -> ex = BranchError_failure) /\
    log (repo (snd (switchBranch git b st)))
    = [(heads_getitem b,
        if list_attribute b then Returns (attribute_repr b)
        else Raises (mkExn E_IndexError ("No item found with id " ++ b)%string))]
      ++ log (repo st).
Proof.
  intros Hb. rewrite switchBranch_run, Hb.
  destruct (list_attribute b); eexists; cbn; repeat split; discriminate.
Qed.

(** C2 (what the code does).  Run inside a repository, the script exits
    with status 0 whatever happens in the three phases; its only other exit
    status is [REMOTERROR], before anything is done, when the remote named
    on the command line does not exist. *)
Theorem main_exit_code repo0 args :
  exit_code (main git abspath (Some repo0) args) = ExitStatus.SUCCESS \/
  (exit_code (main git abspath (Some repo0) args) = ExitStatus.REMOTERROR /\
   mem (Args.remote args) (remotes repo0) = false).
Proof.
  unfold main.
  destruct (find_remote (Args.remote args) repo0) as [[tsRemote|ex] r1] eqn:Hfind.
  - destruct (__init__ _ _ _ _ _ _ _ _ r1) as [[scoper|ex] r2]; [|left; reflexivity].
    destruct (phases git abspath _ _) as [[[]|ex] st]; left; reflexivity.
  - unfold find_remote in Hfind.
    destruct (negb (String.eqb (lower (Args.remote args)) "none")); [|discriminate Hfind].
    unfold repo_remotes_getitem, IterableList_getitem in Hfind.
    destruct (list_attribute (Args.remote args)); [discriminate Hfind|].
    unfold bind, read in Hfind.
    destruct (mem (Args.remote args) (remotes repo0)); [discriminate Hfind|].
    injection Hfind as <- <-. right. split; reflexivity.
Qed.

(** C3 (what the code does).  Handed an empty list of files, which is what
    the command line gives when no file is named, [applyChanges] adds
    nothing at all and, once the stash is applied, has set the [reapply]
    flag: the empty selection is treated as a partial one, not as "all
    changes". *)
Theorem empty_selection_is_partial st :
  exists evs,
    log (repo (snd (applyChanges git abspath (Some []) st))) = evs ++ log (repo st) /\
    forallb (fun ev => negb (is_git_add (fst ev))) evs = true /\
    (forall s, In (git_stash_apply, Returns s) evs ->
       reapply (self (snd (applyChanges git abspath (Some []) st))) = true).
Proof.
  remember (@Some (list string) []) as files eqn:Hfiles.
  applyChanges_cases files st.
  all: subst files.
  all: try (cbn in Hf3; contradiction).
  all: try (cbn in Hres3; apply map_eq_nil in Hres3; subst adds).
  all: cbn; rewrite ?Hlog3, ?Hsw; new_events.
  all: try (cbn in Hlog3; apply app_inv_tail_nil in Hlog3).
  all: split;
    [ weaken_all (fun ev : event => negb (is_git_add (fst ev)));
      cbn; rewrite ?forallb_app; cbn;
      repeat match goal with H : forallb _ _ = true |- _ => rewrite H end; reflexivity | ].
  all: intros s Hin; try (rewrite Hself3'; reflexivity).
  all: exfalso; split_In Hin.
Qed.
End Properties.

Lemma getOption_explicit_user v r :
  getOption "user.name" (Some v) r = (Ok (Some v), r).
Proof. reflexivity. Qed.

Lemma getOption_explicit_email v r :
  getOption "user.email" (Some v) r = (Ok (Some v), r).
Proof. reflexivity. Qed.

Lemma getOption_from_config_user r :
  getOption "user.name" None r =
  match lookup_option "user" "name" (config r) with
  | Some v =>
      (Ok (Some v),
       record (get_value "user" "name") (Returns v)
              (record (has_option "user" "name") (Returns "True") r))
  | None => (Ok None, record (has_option "user" "name") (Returns "False") r)
  end.
Proof.
  unfold getOption; cbn [split Ascii.eqb Bool.eqb is_None].
  unfold bind, reader_has_option, reader_get_value, read, bind, ret.
  cbn [outcome_result]. destruct (lookup_option "user" "name" (config r)) eqn:E; cbn.
  - rewrite E. reflexivity.
  - reflexivity.
Qed.

Lemma getOption_from_config_email r :
  getOption "user.email" None r =
  match lookup_option "user" "email" (config r) with
  | Some v =>
      (Ok (Some v),
       record (get_value "user" "email") (Returns v)
              (record (has_option "user" "email") (Returns "True") r))
  | None => (Ok None, record (has_option "user" "email") (Returns "False") r)
  end.
Proof.
  unfold getOption; cbn [split Ascii.eqb Bool.eqb is_None].
  unfold bind, reader_has_option, reader_get_value, read, bind, ret.
  cbn [outcome_result]. destruct (lookup_option "user" "email" (config r)) eqn:E; cbn.
  - rewrite E. reflexivity.
  - reflexivity.
Qed.

(** C9.  In a construction that succeeds, a name (an email) given
    explicitly is the one kept, and the configuration is then not asked for
    [user.name] ([user.email]) at all; only when the argument is [None] is
    the value taken from the configuration. *)
Theorem explicit_identity_takes_precedence
  up rem usr eml msg nr nc pl (r : Repo) (ts : TeleScope) (r' : Repo) :
  __init__ up rem usr eml msg nr nc pl r = (Ok ts, r') ->
  exists evs,
    log r' = evs ++ log r /\
    (forall u, usr = Some u ->
       user ts = Some u /\
       forallb (fun ev => negb (is_config_read "user" "name" (fst ev))) evs = true) /\
    (forall e, eml = Some e ->
       email ts = Some e /\
       forallb (fun ev => negb (is_config_read "user" "email" (fst ev))) evs = true) /\
    (usr = None -> user ts = lookup_option "user" "name" (config r)) /\
    (eml = None -> email ts = lookup_option "user" "email" (config r)).
Proof.
  unfold __init__. unfold bind at 1. cbn [get].
  destruct (is_git_Repo (repo_class r)); cbn [negb]; [|discriminate].
  unfold bind at 1. unfold repo_active_branch_name at 1. unfold read at 1.
  destruct (HEAD r) as [b|]; cbn [outcome_result]; [|discriminate].
  unfold bind at 1. unfold repo_config_reader at 1. unfold read at 1. cbn [outcome_result].
  unfold bind at 1.
  destruct usr as [u|]; [rewrite getOption_explicit_user|rewrite getOption_from_config_user];
    cbn [config record].
  all: try destruct (lookup_option "user" "name" (config r)) as [cu|].
  all: unfold bind at 1.
  all: destruct eml as [e|];
    [rewrite getOption_explicit_email|rewrite getOption_from_config_email];
    cbn [config record].
  all: try destruct (lookup_option "user" "email" (config r)) as [ce|].
  all: cbn [ret]; intros H; injection H as <- <-; cbn [log record user email].
  all: new_events.
  all: repeat split; try discriminate; try reflexivity.
  all: assumption.
Qed.

(** C10.  A [repo] argument whose class is not [git.Repo] itself (a class
    derived from it included) makes the construction raise [TypeError]; the
    repository object is left as it was: nothing of it was read or changed,
    its log has no new entry. *)
Theorem init_requires_git_Repo up rem usr eml msg nr nc pl (r : Repo) :
  repo_class r <> git_Repo ->
  __init__ up rem usr eml msg nr nc pl r
  = (Raise (mkExn E_TypeError "'repo' must be a Git repository object."), r).
Proof.
  intros Hcls. unfold __init__. unfold bind at 1. cbn [get].
  destruct (repo_class r); [contradiction|reflexivity|reflexivity].
Qed.

(* ===================================================================== *)
(** ** Further properties of the methods *)
(* ===================================================================== *)

Lemma forallb_filter_all {A} (p : A -> bool) (l : list A) :
  forallb p l = true -> filter p l = l.
Proof.
  induction l as [|x l IH]; cbn; [reflexivity|].
  intros H. apply andb_true_iff in H as [Hx Hl]. rewrite Hx, (IH Hl). reflexivity.
Qed.

Section Methods.

Variable git : list event -> call -> outcome.
Variable abspath : string -> string.

(** X1.  [stashChanges] makes one call, [git stash].  It returns only
    when git answered something other than "No local changes to save", and
    only then has the stash list one entry more; on a clean tree it raises
    [StashError] with git's answer as message; a [GitCommandError] becomes
    a [StashError] with the same message, any other exception passes
    through.  The commits, HEAD and the instance are never touched. *)
Theorem stashChanges_outcome st :
  log (repo (snd (stashChanges git st)))
  = (git_stash, git (log (repo st)) git_stash) :: log (repo st) /\
  commits (repo (snd (stashChanges git st))) = commits (repo st) /\
  HEAD (repo (snd (stashChanges git st))) = HEAD (repo st) /\
  self (snd (stashChanges git st)) = self st /\
  match git (log (repo st)) git_stash with
  | Returns s =>
      if String.eqb s No_local_changes_to_save then
        fst (stashChanges git st) = Raise (mkExn E_StashError No_local_changes_to_save) /\
        stash_list (repo (snd (stashChanges git st))) = stash_list (repo st)
      else
        fst (stashChanges git st) = Ok tt /\
        stash_list (repo (snd (stashChanges git st)))
        = length (log (repo st)) :: stash_list (repo st)
  | Raises e =>
      fst (stashChanges git st)
      = Raise (if exn_class_eqb (exn_cls e) E_GitCommandError
               then mkExn E_StashError (exn_message e) else e) /\
      stash_list (repo (snd (stashChanges git st))) = stash_list (repo st)
  end.
Proof.
  rewrite stashChanges_run.
  destruct (git (log (repo st)) git_stash) as [s|e]; cbn.
  - destruct (String.eqb s No_local_changes_to_save) eqn:Hs; cbn.
    + apply String.eqb_eq in Hs. subst s. auto 6.
    + auto 6.
  - auto 6.
Qed.

(** X2.  [switchBranch] touches neither the stash list nor the commits.
    When it returns, the branch asked for is checked out.  When it raises,
    HEAD is where it was, and the exception is never a [BranchError] made by
    the method: it is the [AttributeError] of the broken constructor, the
    [AttributeError] of the method [checkout] missing on an attribute of
    the list of branches, or an exception of the checkout that no clause
    catches. *)
Theorem switchBranch_outcome b st :
  stash_list (repo (snd (switchBranch git b st))) = stash_list (repo st) /\
  commits (repo (snd (switchBranch git b st))) = commits (repo st) /\
  (fst (switchBranch git b st) = Ok tt ->
   HEAD (repo (snd (switchBranch git b st))) = Some b /\ mem b (heads (repo st)) = true /\
   list_attribute b = false) /\
  (forall ex, fst (switchBranch git b st) = Raise ex ->
     HEAD (repo (snd (switchBranch git b st))) = HEAD (repo st) /\
     (ex = BranchError_failure \/
      (list_attribute b = true /\ ex = no_method "checkout") \/
      (caught_by_switchBranch ex = false /\
       git ((heads_getitem b, Returns b) :: log (repo st)) (checkout b) = Raises ex))).
Proof.
  rewrite switchBranch_run.
  destruct (list_attribute b).
  { cbn. split; [reflexivity|]. split; [reflexivity|].
    split; [intros Hok; discriminate Hok|].
    intros ex Hex. injection Hex as <-. auto. }
  destruct (mem b (heads (repo st))); cbv zeta; cbn [logged repo log record].
  - destruct (git _ (checkout b)) as [s|e] eqn:Hco; cbn.
    + split; [reflexivity|]. split; [reflexivity|]. split; [auto|].
      intros ex Hex. discriminate Hex.
    + split; [reflexivity|]. split; [reflexivity|].
      split; [intros Hok; discriminate Hok|].
      intros ex Hex. split; [reflexivity|].
      destruct (caught_by_switchBranch e) eqn:Hc; injection Hex as <-; auto.
  - cbn. split; [reflexivity|]. split; [reflexivity|].
    split; [intros Hok; discriminate Hok|].
    intros ex Hex. injection Hex as <-. auto.
Qed.

Lemma pullFromRemote_run st :
  pullFromRemote git st =
  match remote (self st) with
  | py_str name =>
      if list_attribute name then
        (Raise (mkExn E_RemoteError
                  ("Problem with pull:" ++ nl ++ exn_message (no_method "pull"))),
         logged (remotes_getitem (py_str name)) (Returns (attribute_repr name)) st)
      else if mem name (remotes (repo st)) then
        let st1 := logged (remotes_getitem (py_str name)) (Returns name) st in
        match git (log (repo st1)) (remote_pull name) with
        | Returns s => (Ok tt, executed (remote_pull name) (Returns s) st1)
        | Raises e =>
            (Raise (if matches (except E_IndexError) e
                    then mkExn E_RemoteError ("Remote " ++ name ++ " not found")
                    else mkExn E_RemoteError ("Problem with pull:" ++ nl ++ exn_message e)),
             executed (remote_pull name) (Raises e) st1)
        end
      else
        (Raise (mkExn E_RemoteError ("Remote " ++ name ++ " not found")),
         logged (remotes_getitem (py_str name))
                (Raises (mkExn E_IndexError ("No item found with id " ++ name)%string)) st)
  | x =>
      (Raise (mkExn E_RemoteError
                ("Problem with pull:" ++ nl ++ "getattr(): attribute name must be string")),
       logged (remotes_getitem x)
              (Raises (mkExn E_TypeError "getattr(): attribute name must be string")) st)
  end.
Proof.
  unfold pullFromRemote. unfold bind at 1. cbn [get].
  unfold try_except, on_repo, repo_remotes_getitem, IterableList_getitem, remote_pull_call.
  destruct (remote (self st)) as [|name|name|name]; try reflexivity.
  destruct (list_attribute name); [reflexivity|].
  unfold bind, read, exec, logged, executed.
  destruct (mem name (remotes (repo st))); cbn; [|reflexivity].
  destruct (git _ (remote_pull name)) as [s|e]; cbn; [reflexivity|].
  destruct (exn_class_eqb (exn_cls e) E_IndexError); reflexivity.
Qed.

(** X3.  Whatever git answers, [pullFromRemote] returns or raises
    [RemoteError], nothing else; it makes no call but the lookup of the
    remote and the pull; it leaves the stash list and the instance as they
    are.  When it makes no pull (the lookup failed), nothing of the
    repository has changed and it raises; when it returns, the branch
    checked out is the same and the pull has brought the incoming commits
    into it. *)
Theorem pullFromRemote_raises_only_RemoteError st :
  (forall ex, fst (pullFromRemote git st) = Raise ex -> exn_cls ex = E_RemoteError) /\
  self (snd (pullFromRemote git st)) = self st /\
  stash_list (repo (snd (pullFromRemote git st))) = stash_list (repo st) /\
  exists evs,
    log (repo (snd (pullFromRemote git st))) = evs ++ log (repo st) /\
    forallb (fun ev => in_pullFromRemote (fst ev)) evs = true /\
    (forallb (fun ev => negb (is_pull (fst ev))) evs = true ->
     same_but_log (repo st) (repo (snd (pullFromRemote git st))) /\
     exists ex, fst (pullFromRemote git st) = Raise ex) /\
    (fst (pullFromRemote git st) = Ok tt ->
     HEAD (repo (snd (pullFromRemote git st))) = HEAD (repo st) /\
     commits (repo (snd (pullFromRemote git st)))
     = map (on_branch (HEAD (repo st))) (incoming (repo st)) ++ commits (repo st)).
Proof.
  rewrite pullFromRemote_run.
  destruct (remote (self st)) as [|name|name|name].
  2: destruct (list_attribute name);
     [|destruct (mem name (remotes (repo st))); cbv zeta;
       [destruct (git _ (remote_pull name)) as [s|e]|]].
  all: cbn [fst snd logged executed repo self log record effect pulled
            HEAD stash_list commits incoming].
  all: (split; [intros ex Hex; try discriminate Hex; injection Hex as <-;
                try destruct (exn_class_eqb _ _); reflexivity|]).
  all: (split; [reflexivity|]).
  all: (split; [reflexivity|]).
  all: new_events.
  all: (split; [reflexivity|]).
  all: split; [intros Hnp;
               first [discriminate Hnp
                     |split; [unfold same_but_log; cbn; tauto|eexists; reflexivity]]
              |intros Hok; try discriminate Hok; split; reflexivity].
Qed.

(** X4.  Given the name of a remote the repository does not have (and
    that is not the name of an attribute of the list of remotes either),
    [pullFromRemote] raises [RemoteError] "Remote <name> not found" after
    the lookup alone: no pull is attempted. *)
Theorem pullFromRemote_unknown_remote st name :
  remote (self st) = py_str name ->
  mem name (remotes (repo st)) = false ->
  list_attribute name = false ->
  fst (pullFromRemote git st)
  = Raise (mkExn E_RemoteError ("Remote " ++ name ++ " not found")) /\
  log (repo (snd (pullFromRemote git st)))
  = (remotes_getitem (py_str name),
     Raises (mkExn E_IndexError ("No item found with id " ++ name)%string))
    :: log (repo st).
Proof.
  intros Hr Hm Ha. rewrite pullFromRemote_run, Hr, Ha, Hm. split; reflexivity.
Qed.

(** X22.  Given a name that the list of remotes has as an attribute
    ([sort], [count], ...), whether the repository has a remote of that
    name or not, the lookup returns the attribute and raises nothing:
    [pullFromRemote] then fails on the missing method [pull], and reports
    a problem with the pull, not a remote that was not found; git is not
    asked to pull. *)
Theorem pullFromRemote_attribute_name st name :
  remote (self st) = py_str name ->
  list_attribute name = true ->
  (exists ex,
     fst (pullFromRemote git st) = Raise ex /\ exn_cls ex = E_RemoteError /\
     prefix "Problem with pull:" (exn_message ex) = true) /\
  log (repo (snd (pullFromRemote git st)))
  = (remotes_getitem (py_str name), Returns (attribute_repr name)) :: log (repo st) /\
  same_but_log (repo st) (repo (snd (pullFromRemote git st))).
Proof.
  intros Hr Ha. rewrite pullFromRemote_run, Hr, Ha. cbn [fst snd].
  split; [eexists; repeat split; reflexivity|].
  split; [reflexivity|]. apply same_but_log_record.
Qed.

(** X5.  Handed the [git.Remote] object that [__main__] passes (or
    [None]), [pullFromRemote] cannot find it among the remotes, which are
    looked up by name: it raises [RemoteError] and never pulls. *)
Theorem pullFromRemote_needs_a_name st :
  (forall name, remote (self st) <> py_str name) ->
  (exists ex, fst (pullFromRemote git st) = Raise ex /\ exn_cls ex = E_RemoteError) /\
  exists evs,
    log (repo (snd (pullFromRemote git st))) = evs ++ log (repo st) /\
    forallb (fun ev => negb (is_pull (fst ev))) evs = true.
Proof.
  intros Hr. rewrite pullFromRemote_run.
  destruct (remote (self st)) as [|name|name|name]; [|destruct (Hr name eq_refl)| |].
  all: cbn; split; [eexists; split; reflexivity|new_events; reflexivity].
Qed.


Lemma switchBranch_working_dir b st :
  working_dir (repo (snd (switchBranch git b st))) = working_dir (repo st).
Proof.
  rewrite switchBranch_run.
  destruct (list_attribute b); [reflexivity|].
  destruct (mem b (heads (repo st))); cbv zeta; [|reflexivity].
  destruct (git _ (checkout b)); reflexivity.
Qed.

Lemma add_loop_returned files : forall st adds,
  log (repo (snd (add_loop git abspath files st))) = adds ++ log (repo st) ->
  fst (add_loop git abspath files st) = Ok tt ->
  forallb (fun ev => returned (snd ev)) adds = true.
Proof.
  induction files as [|f fs IH]; intros st adds Hlog Hok.
  - cbn in Hlog. apply (app_inv_tail _ [] adds) in Hlog. subst adds. reflexivity.
  - rewrite add_loop_cons in Hlog, Hok.
    destruct (git (log (repo st)) (git_add (abspath f))) as [s|e]; [|discriminate Hok].
    destruct (add_loop_spec git abspath fs
                (mkState (self st) (record (git_add (abspath f)) (Returns s) (repo st))
                         (stderr st)))
      as (adds1 & Hlog1 & _).
    pose proof (IH _ adds1 Hlog1 Hok) as Hall.
    rewrite Hlog1 in Hlog. cbn [repo log record] in Hlog.
    assert (E : adds = adds1 ++ [(git_add (abspath f), Returns s)]).
    { apply (app_inv_tail (log (repo st))). rewrite <- Hlog, <- app_assoc. reflexivity. }
    subst adds. rewrite forallb_app, Hall. reflexivity.
Qed.

(** A call of [switchBranch] that raised is its last call, and the method
    then raises. *)
Lemma switchBranch_fail_fast b st evs c e :
  log (repo (snd (switchBranch git b st))) = evs ++ log (repo st) ->
  In (c, Raises e) evs ->
  (exists rest, evs = (c, Raises e) :: rest) /\
  exists ex, fst (switchBranch git b st) = Raise ex.
Proof.
  rewrite switchBranch_run.
  destruct (list_attribute b);
    [|destruct (mem b (heads (repo st))); cbv zeta;
      [destruct (git _ (checkout b)) as [s|e']|]]; intros Hevs Hin.
  all: cbn in Hevs; the_events Hevs; split_In Hin.
  all: injection Hin as <- <-; split; eexists; reflexivity.
Qed.

(** An add that raised is the last call of the loop, which raises the same
    exception. *)
Lemma add_loop_fail_fast files : forall st adds c e,
  log (repo (snd (add_loop git abspath files st))) = adds ++ log (repo st) ->
  In (c, Raises e) adds ->
  (exists rest, adds = (c, Raises e) :: rest) /\
  fst (add_loop git abspath files st) = Raise e.
Proof.
  induction files as [|f fs IH]; intros st adds c e Hlog Hin.
  - cbn in Hlog. apply (app_inv_tail _ [] adds) in Hlog. subst adds. contradiction.
  - rewrite add_loop_cons in Hlog |- *.
    destruct (git (log (repo st)) (git_add (abspath f))) as [s|e'].
    + destruct (add_loop_spec git abspath fs
                  (mkState (self st) (record (git_add (abspath f)) (Returns s) (repo st))
                           (stderr st)))
        as (adds1 & Hlog1 & _).
      rewrite Hlog1 in Hlog. cbn [repo log record] in Hlog.
      assert (E : adds = adds1 ++ [(git_add (abspath f), Returns s)]).
      { apply (app_inv_tail (log (repo st))). rewrite <- Hlog, <- app_assoc. reflexivity. }
      subst adds. apply in_app_iff in Hin as [Hin|[Hin|[]]]; [|discriminate Hin].
      destruct (IH _ adds1 c e Hlog1 Hin) as ((rest & ->) & Hres).
      split; [exists (rest ++ [(git_add (abspath f), Returns s)]); reflexivity|exact Hres].
    + cbn in Hlog. the_events Hlog. destruct Hin as [Hin|[]].
      injection Hin as <- <-. split; [exists []; reflexivity|reflexivity].
Qed.

(** The run of [applyChanges] case by case, as in [applyChanges_cases],
    with the working directory and the outcome of the adds at hand. *)
Ltac applyChanges_paths files st :=
  rewrite (applyChanges_run git abspath files st);
  pose proof (switchBranch_working_dir (upstream (self st)) st) as Hwd1;
  destruct (switchBranch_spec git (upstream (self st)) st)
    as (sw & Hsw & Hsw_all & Hself1 & Herr1 & Hstash1 & Hcommits1 & Hheads1 & Hres1);
  pose proof (switchBranch_fail_fast (upstream (self st)) st sw) as Hff1;
  destruct (switchBranch git (upstream (self st)) st) as [[[]|e1] st1];
  cbn [fst snd] in Hsw, Hself1, Herr1, Hstash1, Hcommits1, Hheads1, Hres1, Hwd1, Hff1;
  specialize (fun c e => Hff1 c e Hsw);
  [ destruct Hres1 as (HHEAD1 & s1 & Hsw_eq);
    destruct (git (log (repo st1)) git_stash_apply) as [s2|e2] eqn:Happly;
    [ cbv zeta;
      destruct (add_loop_spec git abspath
                  (staged_files files (executed git_stash_apply (Returns s2) st1))
                  (staged_state files (executed git_stash_apply (Returns s2) st1)))
        as (adds & Hlog3 & Hadds_all & Hsame3 & Hself3 & Herr3 & Hres3);
      pose proof (add_loop_returned _ _ adds Hlog3) as Hret;
      pose proof (fun c e => add_loop_fail_fast _ _ adds c e Hlog3) as Hff3;
      destruct Hsame3 as (_ & _ & _ & _ & HHEAD3 & _ & Hstash3 & Hcommits3 & _ & _);
      destruct (add_loop git abspath
                  (staged_files files (executed git_stash_apply (Returns s2) st1))
                  (staged_state files (executed git_stash_apply (Returns s2) st1)))
        as [[[]|e3] st3];
      cbn [fst snd] in Hlog3, Hself3, Herr3, Hres3, Hstash3, Hcommits3, HHEAD3, Hret, Hff3;
      [ specialize (Hret eq_refl);
        unfold commit_call;
        destruct (git (log (repo st3)) _) as [s4|e4] eqn:Hcommit;
        [ cbv zeta; unfold after_push; cbn [self executed];
          destruct (remote (self st3)) as [|nm|nm|nm] eqn:Hremote;
          [ | | destruct (git _ (remote_push nm)) as [s5|e5] eqn:Hpush | ];
          try (destruct (reapply (self st3)) eqn:Hreapply;
               [ rewrite backoutChanges_run;
                 destruct (git _ head_reset) as [s6|e6] eqn:Hreset | ])
        | ]
      | clear Hret; destruct Hres3 as (f3 & rest3 & Hf3 & Hadds_eq) ]
    | ]
  | destruct Hres1 as [(c1 & e1' & rest1 & Hsw_eq)|(Hattr & Hsw_eq & Hex1)];
    [ | injection Hex1 as -> ] ];
  cbn [fst snd].

(** In the leaves of [applyChanges_paths], with [files] known: the state
    before the adds spelled out. *)
Ltac staged :=
  cbn [staged_state staged_files executed logged repo self stderr log record effect
       stash_list commits HEAD working_dir set_reapply reapply remote user email message
       upstream thisbranch norebase noclear pull]
    in *.

(** X6.  When [applyChanges] returns, every file was to be moved
    ([files] is [None]) and it made exactly these calls, each of which
    returned: the lookup and checkout of the upstream branch, the stash
    apply, one add of the working directory, the commit, and the push if
    and only if a remote object is set.  The upstream branch is checked
    out and has exactly one commit more; the stash list and the instance
    are as before. *)
Theorem applyChanges_success files st st' :
  applyChanges git abspath files st = (Ok tt, st') ->
  files = None /\
  (exists s1 s2 s3 s4 pushed,
     log (repo st')
     = pushed ++
       [ (commit_call (self st), Returns s4);
         (git_add (abspath (working_dir (repo st))), Returns s3);
         (get_working_dir, Returns (working_dir (repo st)));
         (git_stash_apply, Returns s2);
         (checkout (upstream (self st)), Returns s1);
         (heads_getitem (upstream (self st)), Returns (upstream (self st))) ]
       ++ log (repo st) /\
     (remote (self st) = py_None /\ pushed = [] \/
      exists n s5, remote (self st) = Remote n /\ pushed = [(remote_push n, Returns s5)])) /\
  commits (repo st')
  = mkCommit (Some (upstream (self st))) (authorstring (user (self st)) (email (self st)))
             (message (self st)) :: commits (repo st) /\
  HEAD (repo st') = Some (upstream (self st)) /\
  stash_list (repo st') = stash_list (repo st) /\
  self st' = self st.
Proof.
  revert st'. applyChanges_paths files st; intros st' Hrun; try discriminate Hrun.
  all: injection Hrun as <-.
  all: destruct files as [fs|]; staged;
       [rewrite Hself3 in Hreapply; discriminate Hreapply|].
  all: rewrite Hself3, Hself1 in Hremote; clear Hreapply.
  all: split; [reflexivity|].
  all: rewrite Hwd1 in Hres3.
  all: destruct adds as [|[c3 [s3|e3]] [|ev3 adds]]; try discriminate Hres3;
       try discriminate Hret; injection Hres3 as ->.
  all: cbn [app] in Hlog3; rewrite Hsw, Hwd1 in Hlog3.
  all: rewrite ?Hself3, ?Hself1, ?Hlog3, ?Hcommits3, ?HHEAD3, ?Hstash3, ?Hcommits1,
         ?Hstash1, ?HHEAD1; subst sw.
  all: cbn [set_commits log commits HEAD stash_list].
  all: rewrite ?Hlog3, ?HHEAD3, ?HHEAD1, ?Hstash3, ?Hstash1.
  all: (split; [|repeat split; reflexivity]).
  - exists s1, s2, s3, s4, []. split; [reflexivity|]. left. split; [exact Hremote|reflexivity].
  - exists s1, s2, s3, s4, [(remote_push nm, Returns s5)]. split; [reflexivity|].
    right. exists nm, s5. split; [exact Hremote|reflexivity].
Qed.

(** X7.  With a file selection, whenever [applyChanges] gets as far as
    the commit, the adds it made are exactly the selected files, each made
    absolute, in the order given, and every one of them returned. *)
Theorem selected_files_added_in_order fs st :
  exists evs,
    log (repo (snd (applyChanges git abspath (Some fs) st))) = evs ++ log (repo st) /\
    forall o,
      In (commit_call (self st), o) evs ->
      map fst (filter (fun ev => is_git_add (fst ev)) evs)
      = rev (map (fun f => git_add (abspath f)) fs) /\
      forallb (fun ev => returned (snd ev)) (filter (fun ev => is_git_add (fst ev)) evs)
      = true.
Proof.
  remember (Some fs) as files eqn:Hfiles.
  applyChanges_paths files st.
  all: subst files; staged.
  all: cbn [set_commits log]; rewrite ?Hlog3, ?Hsw; new_events.
  all: intros o Hin.
  all: try (exfalso; unfold commit_call in Hin; split_In Hin; fail).
  all: subst sw; repeat (progress cbn [filter is_git_add fst app] || rewrite filter_app);
       rewrite (forallb_filter_all _ _ Hadds_all), ?app_nil_r.
  all: split; [exact Hres3|exact Hret].
Qed.

(** A push is made only on the remote object the instance holds. *)
Lemma applyChanges_push_source files st evs n o :
  log (repo (snd (applyChanges git abspath files st))) = evs ++ log (repo st) ->
  In (remote_push n, o) evs ->
  remote (self st) = Remote n.
Proof.
  applyChanges_paths files st; intros Hevs Hin.
  all: cbn in Hevs; rewrite ?Hlog3 in Hevs.
  all: try (destruct files; staged; rewrite Hsw in Hevs).
  all: rewrite ?Hsw in Hevs; the_events Hevs.
  all: try (rewrite Hself3 in Hremote; cbn in Hremote; rewrite Hself1 in Hremote).
  all: split_In Hin.
  all: injection Hin as -> _; exact Hremote.
Qed.

Lemma stashChanges_log st :
  log (repo (snd (stashChanges git st)))
  = (git_stash, git (log (repo st)) git_stash) :: log (repo st) /\
  self (snd (stashChanges git st)) = self st.
Proof.
  rewrite stashChanges_run.
  destruct (git (log (repo st)) git_stash); cbn [snd]; rewrite log_executed; auto.
Qed.

(** The three ways the workflow can go. *)
Lemma workflow_cases files st :
  (workflow git abspath files st = (fst (stashChanges git st), snd (stashChanges git st)) /\
   exists ex, fst (stashChanges git st) = Raise ex) \/
  (fst (stashChanges git st) = Ok tt /\
   workflow git abspath files st
   = (fst (applyChanges git abspath files (snd (stashChanges git st))),
      snd (applyChanges git abspath files (snd (stashChanges git st)))) /\
   exists ex, fst (applyChanges git abspath files (snd (stashChanges git st))) = Raise ex) \/
  (fst (stashChanges git st) = Ok tt /\
   fst (applyChanges git abspath files (snd (stashChanges git st))) = Ok tt /\
   workflow git abspath files st
   = switchAndRebase git (snd (applyChanges git abspath files (snd (stashChanges git st))))).
Proof.
  unfold workflow, bind.
  destruct (stashChanges git st) as [[[]|ex0] st1]; cbn [fst snd]; [|left; eauto].
  right. destruct (applyChanges git abspath files st1) as [[[]|ex1] st2]; cbn [fst snd].
  - right. auto.
  - left. eauto.
Qed.

(** What holds of the stash call, of every call of [applyChanges] and of
    every call of [switchAndRebase] holds of every call of the workflow. *)
Lemma workflow_events (P : event -> Prop) files st :
  P (git_stash, git (log (repo st)) git_stash) ->
  (forall st1 evs ev,
     self st1 = self st ->
     log (repo (snd (applyChanges git abspath files st1))) = evs ++ log (repo st1) ->
     In ev evs -> P ev) ->
  (forall st2 evs ev,
     self st2 = set_reapply (reapply (self st2)) (self st) ->
     log (repo (snd (switchAndRebase git st2))) = evs ++ log (repo st2) ->
     In ev evs -> P ev) ->
  exists evs,
    log (repo (snd (workflow git abspath files st))) = evs ++ log (repo st) /\
    forall ev, In ev evs -> P ev.
Proof.
  intros Hstash Happly Hswitch.
  destruct (stashChanges_log st) as (Hlog0 & Hself0).
  destruct (applyChanges_extends git abspath files (snd (stashChanges git st)))
    as (evs1 & Hevs1 & _).
  destruct (applyChanges_frame git abspath files (snd (stashChanges git st)))
    as (_ & Hself1).
  rewrite Hself0 in Hself1.
  destruct (switchAndRebase_extends git
              (snd (applyChanges git abspath files (snd (stashChanges git st)))))
    as (evs2 & Hevs2 & _).
  destruct (workflow_cases files st) as [(-> & _)|[(_ & -> & _)|(_ & _ & ->)]];
    cbn [snd].
  - exists [(git_stash, git (log (repo st)) git_stash)]. split; [exact Hlog0|].
    intros ev [<-|[]]. exact Hstash.
  - exists (evs1 ++ [(git_stash, git (log (repo st)) git_stash)]).
    split; [rewrite Hevs1, Hlog0, <- app_assoc; reflexivity|].
    intros ev Hin. apply in_app_iff in Hin as [Hin|[<-|[]]]; [|exact Hstash].
    exact (Happly _ evs1 ev Hself0 Hevs1 Hin).
  - exists (evs2 ++ evs1 ++ [(git_stash, git (log (repo st)) git_stash)]).
    split; [rewrite Hevs2, Hevs1, Hlog0, <- !app_assoc; reflexivity|].
    intros ev Hin. apply in_app_iff in Hin as [Hin|Hin].
    + exact (Hswitch _ evs2 ev Hself1 Hevs2 Hin).
    + apply in_app_iff in Hin as [Hin|[<-|[]]]; [|exact Hstash].
      exact (Happly _ evs1 ev Hself0 Hevs1 Hin).
Qed.

(** X8.  In the whole workflow a push is made only on the [git.Remote]
    object the instance was given: with [None], or with a plain name, no
    push call is ever made. *)
Theorem push_only_on_Remote_object files st :
  exists evs,
    log (repo (snd (workflow git abspath files st))) = evs ++ log (repo st) /\
    forall n o, In (remote_push n, o) evs -> remote (self st) = Remote n.
Proof.
  destruct (workflow_events
              (fun ev => forall n o, ev = (remote_push n, o) -> remote (self st) = Remote n)
              files st) as (evs & Hevs & Hall).
  - intros n o H. discriminate H.
  - intros st1 evs ev Hself Hevs Hin n o ->. rewrite <- Hself.
    exact (applyChanges_push_source files st1 evs n o Hevs Hin).
  - intros st2 evs ev _ Hevs Hin n o ->. exfalso.
    destruct (switchAndRebase_extends git st2) as (evs' & Hevs' & Hall').
    rewrite Hevs in Hevs'. apply app_inv_tail in Hevs'. subst evs'.
    revert Hin. apply (forallb_not_In _ _ _ Hall'). reflexivity.
  - exists evs. split; [exact Hevs|]. intros n o Hin. exact (Hall _ Hin n o eq_refl).
Qed.

(** X9.  With a plain name as remote, which is what the constructor's
    default ['origin'] is, the workflow never runs to its end: after the
    commit, [self.remote.push()] raises [AttributeError]. *)
Theorem name_as_remote_never_completes files st name :
  remote (self st) = py_str name ->
  exists ex, fst (workflow git abspath files st) = Raise ex.
Proof.
  intros Hremote.
  destruct (stashChanges_log st) as (_ & Hself0).
  destruct (workflow_cases files st) as [(-> & H)|[(_ & -> & H)|(_ & Hok & _)]];
    [exact H|exact H|exfalso].
  destruct (applyChanges_extends git abspath files (snd (stashChanges git st)))
    as (evs1 & Hevs1 & _).
  destruct (applyChanges_ok git abspath files _ evs1 Hok Hevs1) as (_ & Hpushed).
  rewrite Hself0, Hremote in Hpushed.
  destruct Hpushed as (n & s & rest & ->); [discriminate|].
  pose proof (applyChanges_push_source files _ _ n (Returns s) Hevs1 (or_introl eq_refl)) as H.
  rewrite Hself0, Hremote in H. discriminate H.
Qed.

(** The run of [switchAndRebase], case by case. *)
Ltac switchAndRebase_paths st :=
  rewrite (switchAndRebase_run git st);
  destruct (switchBranch_spec git (thisbranch (self st)) st)
    as (sw & Hsw & Hsw_all & Hself1 & Herr1 & Hstash1 & Hcommits1 & Hheads1 & Hres1);
  destruct (switchBranch git (thisbranch (self st)) st) as [[[]|e1] st1];
  cbn [fst snd] in Hsw, Hself1, Herr1, Hstash1, Hcommits1, Hheads1, Hres1;
  [ destruct Hres1 as (HHEAD1 & s1 & Hsw_eq);
    destruct (norebase (self st)) eqn:Hnorebase;
    [ | destruct (git (log (repo st1)) (git_rebase (upstream (self st))))
          as [s2|e2] eqn:Hrebase;
        [ | unfold executed; cbn [effect];
            destruct (stops_on_conflict (repo st1)) eqn:Hconfl ] ];
    try (unfold drop_step;
         destruct (noclear (self st)) eqn:Hnoclear;
         [ | destruct (git _ git_stash_drop) as [s3|e3] eqn:Hdrop ])
  | destruct Hres1 as [(c1 & e1' & rest1 & Hsw_eq)|(Hattr & Hsw_eq & Hex1)];
    [ | injection Hex1 as -> ] ];
  cbn [fst snd].

Lemma switchBranch_stops_on_conflict b st :
  stops_on_conflict (repo (snd (switchBranch git b st))) = stops_on_conflict (repo st).
Proof.
  rewrite switchBranch_run.
  destruct (list_attribute b); [reflexivity|].
  destruct (mem b (heads (repo st))); cbv zeta; [|reflexivity].
  destruct (git _ (checkout b)); reflexivity.
Qed.

(** X10.  When the rebase raises, [switchAndRebase] stops there: the
    rebase is its last call (it is not aborted), no stash drop is made
    whatever the [noclear] flag, the stash list and the commits are
    unchanged, and a [GitCommandError] is reported as [ConflictError].
    HEAD is left where the rebase left it: detached when it stopped on a
    conflict, on the local branch when it failed before it started. *)
Theorem rebase_failure_keeps_stash st :
  exists evs,
    log (repo (snd (switchAndRebase git st))) = evs ++ log (repo st) /\
    forall e,
      In (git_rebase (upstream (self st)), Raises e) evs ->
      fst (switchAndRebase git st)
      = Raise (rewrapped E_ConflictError ("Problem in rebase:" ++ nl) e) /\
      (exists rest, evs = (git_rebase (upstream (self st)), Raises e) :: rest) /\
      forallb (fun ev => negb (is_stash_drop (fst ev))) evs = true /\
      stash_list (repo (snd (switchAndRebase git st))) = stash_list (repo st) /\
      commits (repo (snd (switchAndRebase git st))) = commits (repo st) /\
      HEAD (repo (snd (switchAndRebase git st)))
      = (if stops_on_conflict (repo st) then None else Some (thisbranch (self st))).
Proof.
  pose proof (switchBranch_stops_on_conflict (thisbranch (self st)) st) as Hc.
  switchAndRebase_paths st; cbn [fst snd] in Hc.
  all: cbn; rewrite ?Hsw; new_events.
  all: intros e Hin; split_In Hin.
  all: injection Hin as <-; subst sw; cbn;
       rewrite <- Hc, Hconfl, ?Hstash1, ?Hcommits1, ?HHEAD1; eauto 7.
Qed.

Lemma switchAndRebase_flags st evs :
  log (repo (snd (switchAndRebase git st))) = evs ++ log (repo st) ->
  (noclear (self st) = true ->
   forallb (fun ev => negb (is_stash_drop (fst ev))) evs = true /\
   stash_list (repo (snd (switchAndRebase git st))) = stash_list (repo st)) /\
  (norebase (self st) = true ->
   forallb (fun ev => negb (is_rebase (fst ev))) evs = true) /\
  (fst (switchAndRebase git st) = Ok tt ->
   HEAD (repo (snd (switchAndRebase git st))) = Some (thisbranch (self st)) /\
   stash_list (repo (snd (switchAndRebase git st)))
   = (if noclear (self st) then stash_list (repo st) else tl (stash_list (repo st))) /\
   stderr (snd (switchAndRebase git st))
   = (if noclear (self st) then [noclear_notice] else [])
     ++ (if norebase (self st) then [norebase_notice] else []) ++ stderr st) /\
  commits (repo (snd (switchAndRebase git st))) = commits (repo st) /\
  self (snd (switchAndRebase git st)) = self st.
Proof.
  switchAndRebase_paths st; intros Hevs.
  all: cbn in Hevs; rewrite ?Hsw in Hevs; the_events Hevs.
  all: cbn; rewrite ?Hstash1, ?Hcommits1, ?Hself1, ?HHEAD1, ?Herr1.
  all: repeat (split || intro); try discriminate; try reflexivity.
  all: first [ weaken_all (fun ev : event => negb (is_stash_drop (fst ev))); assumption
             | weaken_all (fun ev : event => negb (is_rebase (fst ev))); assumption ].
Qed.

Lemma applyChanges_ok_state files st :
  fst (applyChanges git abspath files st) = Ok tt ->
  files = None /\
  commits (repo (snd (applyChanges git abspath files st)))
  = mkCommit (Some (upstream (self st))) (authorstring (user (self st)) (email (self st)))
             (message (self st)) :: commits (repo st) /\
  self (snd (applyChanges git abspath files st)) = self st.
Proof.
  applyChanges_paths files st; intros Hok; try discriminate Hok.
  all: destruct files as [fs|]; staged;
       [rewrite Hself3 in Hreapply; discriminate Hreapply|].
  all: cbn [set_commits commits]; rewrite ?Hself3, ?Hself1, HHEAD3, HHEAD1, Hcommits3, Hcommits1.
  all: repeat split; reflexivity.
Qed.

Lemma self_after_applyChanges files st :
  noclear (self (snd (applyChanges git abspath files st))) = noclear (self st) /\
  norebase (self (snd (applyChanges git abspath files st))) = norebase (self st) /\
  thisbranch (self (snd (applyChanges git abspath files st))) = thisbranch (self st) /\
  upstream (self (snd (applyChanges git abspath files st))) = upstream (self st).
Proof.
  destruct (applyChanges_frame git abspath files st) as (_ & ->). repeat split; reflexivity.
Qed.

(** X11.  With [noclear] set, no call of the workflow is a stash drop, and
    the run ends, however it ends, with the stash list as [stashChanges]
    left it. *)
Theorem noclear_keeps_stash files st :
  noclear (self st) = true ->
  (exists evs,
     log (repo (snd (workflow git abspath files st))) = evs ++ log (repo st) /\
     forall ev, In ev evs -> is_stash_drop (fst ev) = false) /\
  stash_list (repo (snd (workflow git abspath files st)))
  = stash_list (repo (snd (stashChanges git st))).
Proof.
  intros Hnc. split.
  - apply workflow_events.
    + reflexivity.
    + intros st1 evs ev _ Hevs Hin.
      destruct (applyChanges_extends git abspath files st1) as (evs' & Hevs' & Hall).
      rewrite Hevs in Hevs'. apply app_inv_tail in Hevs'. subst evs'.
      pose proof (proj1 (forallb_forall _ _) Hall ev Hin) as H.
      destruct ev as [[] ?]; cbn in H; try discriminate H; reflexivity.
    + intros st2 evs ev Hself Hevs Hin.
      destruct (switchAndRebase_flags st2 evs Hevs) as (Hflag & _).
      rewrite Hself in Hflag. destruct (Hflag Hnc) as (Hall & _).
      apply negb_true_iff. exact (proj1 (forallb_forall _ _) Hall ev Hin).
  - destruct (stashChanges_log st) as (_ & Hself0).
    destruct (applyChanges_frame git abspath files (snd (stashChanges git st)))
      as (Hstash1 & _).
    destruct (self_after_applyChanges files (snd (stashChanges git st))) as (Hnc1 & _).
    rewrite Hself0 in Hnc1.
    destruct (switchAndRebase_extends git
                (snd (applyChanges git abspath files (snd (stashChanges git st)))))
      as (evs2 & Hevs2 & _).
    destruct (switchAndRebase_flags _ evs2 Hevs2) as (Hflag & _).
    rewrite Hnc1 in Hflag. destruct (Hflag Hnc) as (_ & Hstash2).
    destruct (workflow_cases files st) as [(-> & _)|[(_ & -> & _)|(_ & _ & ->)]];
      cbn [snd]; congruence.
Qed.

(** X12.  With [norebase] set, no call of the workflow is a rebase; and
    when the workflow returns, the notice that the rebase was skipped has
    been written to stderr. *)
Theorem norebase_skips_rebase files st :
  norebase (self st) = true ->
  (exists evs,
     log (repo (snd (workflow git abspath files st))) = evs ++ log (repo st) /\
     forall ev, In ev evs -> is_rebase (fst ev) = false) /\
  (fst (workflow git abspath files st) = Ok tt ->
   In norebase_notice (stderr (snd (workflow git abspath files st)))).
Proof.
  intros Hnr. split.
  - apply workflow_events.
    + reflexivity.
    + intros st1 evs ev _ Hevs Hin.
      destruct (applyChanges_extends git abspath files st1) as (evs' & Hevs' & Hall).
      rewrite Hevs in Hevs'. apply app_inv_tail in Hevs'. subst evs'.
      pose proof (proj1 (forallb_forall _ _) Hall ev Hin) as H.
      destruct ev as [[] ?]; cbn in H; try discriminate H; reflexivity.
    + intros st2 evs ev Hself Hevs Hin.
      destruct (switchAndRebase_flags st2 evs Hevs) as (_ & Hflag & _).
      rewrite Hself in Hflag. specialize (Hflag Hnr).
      apply negb_true_iff. exact (proj1 (forallb_forall _ _) Hflag ev Hin).
  - destruct (stashChanges_log st) as (_ & Hself0).
    destruct (self_after_applyChanges files (snd (stashChanges git st)))
      as (_ & Hnr1 & _).
    rewrite Hself0 in Hnr1.
    destruct (switchAndRebase_extends git
                (snd (applyChanges git abspath files (snd (stashChanges git st)))))
      as (evs2 & Hevs2 & _).
    destruct (switchAndRebase_flags _ evs2 Hevs2) as (_ & _ & Hok & _).
    rewrite Hnr1, Hnr in Hok.
    destruct (workflow_cases files st)
      as [(-> & ex & Hex)|[(_ & -> & ex & Hex)|(_ & _ & ->)]]; cbn [fst snd].
    + rewrite Hex. discriminate.
    + rewrite Hex. discriminate.
    + intros H. destruct (Hok H) as (_ & _ & ->).
      apply in_app_iff. right. left. reflexivity.
Qed.

(** X13.  When the whole workflow returns, there was no file selection,
    the branch checked out is the one the instance was made on, the
    upstream branch has exactly one commit more, carrying the author string
    and the message of the instance, and the stash list is as at the start,
    with the entry of this run on top when [noclear] is set. *)
Theorem workflow_success files st st' :
  workflow git abspath files st = (Ok tt, st') ->
  files = None /\
  HEAD (repo st') = Some (thisbranch (self st)) /\
  commits (repo st')
  = mkCommit (Some (upstream (self st))) (authorstring (user (self st)) (email (self st)))
             (message (self st)) :: commits (repo st) /\
  stash_list (repo st')
  = (if noclear (self st) then length (log (repo st)) :: stash_list (repo st)
     else stash_list (repo st)) /\
  self st' = self st.
Proof.
  intros Hrun.
  destruct (workflow_cases files st)
    as [(E & ex & Hex)|[(_ & E & ex & Hex)|(Hok0 & Hok1 & E)]];
    rewrite Hrun in E.
  - injection E as E _. rewrite Hex in E. discriminate E.
  - injection E as E _. rewrite Hex in E. discriminate E.
  - destruct (stashChanges git st) as [r0 st1] eqn:Hstash. cbn [fst snd] in *. subst r0.
    destruct (stashChanges_ok git st st1 Hstash) as (s0 & _ & _ & _ & Hst1 & Hcm1 & Hself1).
    destruct (applyChanges_ok_state files st1 Hok1) as (Hfiles & Hcm2 & Hself2).
    destruct (applyChanges_frame git abspath files st1) as (Hst2 & _).
    destruct (switchAndRebase_extends git (snd (applyChanges git abspath files st1)))
      as (evs2 & Hevs2 & _).
    destruct (switchAndRebase_flags _ evs2 Hevs2) as (_ & _ & Hok & Hcm3 & Hself3).
    rewrite <- E in Hok, Hcm3, Hself3. cbn [fst snd] in Hok, Hcm3, Hself3.
    destruct (Hok eq_refl) as (HHEAD & Hst3 & _).
    rewrite Hself2, Hself1 in HHEAD, Hst3.
    split; [exact Hfiles|]. split; [exact HHEAD|].
    split; [rewrite Hcm3, Hcm2, Hself1, Hcm1; reflexivity|].
    split; [|rewrite Hself3, Hself2; exact Hself1].
    rewrite Hst3, Hst2, Hst1. destruct (noclear (self st)); reflexivity.
Qed.

Lemma applyChanges_fail_fast files st evs c e :
  log (repo (snd (applyChanges git abspath files st))) = evs ++ log (repo st) ->
  In (c, Raises e) evs ->
  (exists rest, evs = (c, Raises e) :: rest) /\
  exists ex, fst (applyChanges git abspath files st) = Raise ex.
Proof.
  applyChanges_paths files st; intros Hevs Hin.
  all: cbn in Hevs; rewrite ?Hlog3 in Hevs.
  all: try (destruct files; staged; rewrite Hsw in Hevs).
  all: rewrite ?Hsw in Hevs; the_events Hevs.
  all: repeat (cbn [In] in Hin || rewrite in_app_iff in Hin).
  all: repeat match type of Hin with
              | _ \/ _ => destruct Hin as [Hin|Hin]
              end;
       try contradiction; try discriminate Hin.
  all: try (destruct (Hff1 _ _ Hin) as (_ & ex & Hex); discriminate Hex).
  all: try (destruct (Hff3 _ _ Hin) as (_ & Hex); discriminate Hex).
  all: try (injection Hin as <- <-; split; eexists; reflexivity).
  all: try (destruct (Hff3 _ _ Hin) as ((rest & ->) & Hex); injection Hex as ->;
            split; eexists; reflexivity).
  all: destruct (Hff1 _ _ Hin) as ((rest & ->) & _); split; eexists; reflexivity.
Qed.

Lemma switchAndRebase_fail_fast st evs c e :
  log (repo (snd (switchAndRebase git st))) = evs ++ log (repo st) ->
  In (c, Raises e) evs ->
  (exists rest, evs = (c, Raises e) :: rest) /\
  exists ex, fst (switchAndRebase git st) = Raise ex.
Proof.
  pose proof (fun evs c e => switchBranch_fail_fast (thisbranch (self st)) st evs c e) as Hff1.
  switchAndRebase_paths st; cbn [fst snd] in Hff1; intros Hevs Hin.
  all: cbn in Hevs; rewrite ?Hsw in Hevs; the_events Hevs.
  all: repeat (cbn [In] in Hin || rewrite in_app_iff in Hin).
  all: repeat match type of Hin with
              | _ \/ _ => destruct Hin as [Hin|Hin]
              end;
       try contradiction; try discriminate Hin.
  all: try (destruct (Hff1 _ _ _ Hsw Hin) as (_ & ex & Hex); discriminate Hex).
  all: try (injection Hin as <- <-; split; eexists; reflexivity).
  all: destruct (Hff1 _ _ _ Hsw Hin) as ((rest & ->) & _); split; eexists; reflexivity.
Qed.

(** X14.  The workflow stops at the first call that raises: a call that
    raised is always the last call of the run, and the run then ends in an
    exception; nothing is retried and nothing is done after a failure. *)
Theorem workflow_stops_at_first_failure files st :
  exists evs,
    log (repo (snd (workflow git abspath files st))) = evs ++ log (repo st) /\
    forall c e,
      In (c, Raises e) evs ->
      (exists rest, evs = (c, Raises e) :: rest) /\
      exists ex, fst (workflow git abspath files st) = Raise ex.
Proof.
  destruct (stashChanges_log st) as (Hlog0 & _).
  destruct (applyChanges_extends git abspath files (snd (stashChanges git st)))
    as (evs1 & Hevs1 & _).
  destruct (switchAndRebase_extends git
              (snd (applyChanges git abspath files (snd (stashChanges git st)))))
    as (evs2 & Hevs2 & _).
  pose proof (applyChanges_fail_fast files (snd (stashChanges git st)) evs1) as Hff1.
  pose proof (switchAndRebase_fail_fast
                (snd (applyChanges git abspath files (snd (stashChanges git st)))) evs2)
    as Hff2.
  destruct (workflow_cases files st)
    as [(-> & ex & Hex)|[(Hok0 & -> & ex & Hex)|(Hok0 & Hok1 & ->)]]; cbn [fst snd].
  - exists [(git_stash, git (log (repo st)) git_stash)]. split; [exact Hlog0|].
    intros c e [Hin|[]]. rewrite <- Hin. split; [exists []; reflexivity|].
    exists ex. exact Hex.
  - exists (evs1 ++ [(git_stash, git (log (repo st)) git_stash)]).
    split; [rewrite Hevs1, Hlog0, <- app_assoc; reflexivity|].
    intros c e Hin. split; [|exists ex; exact Hex].
    apply in_app_iff in Hin as [Hin|[Hin|[]]].
    + destruct (Hff1 c e Hevs1 Hin) as ((rest & ->) & _). eexists. reflexivity.
    + exfalso. revert Hok0 Hin. rewrite stashChanges_run.
      destruct (git (log (repo st)) git_stash) as [s|e']; intros Hok0 Hin;
        [discriminate Hin|].
      discriminate Hok0.
  - exists (evs2 ++ evs1 ++ [(git_stash, git (log (repo st)) git_stash)]).
    split; [rewrite Hevs2, Hevs1, Hlog0, <- !app_assoc; reflexivity|].
    intros c e Hin. apply in_app_iff in Hin as [Hin|Hin].
    + destruct (Hff2 c e Hevs2 Hin) as ((rest & ->) & Hex).
      split; [eexists; reflexivity|exact Hex].
    + exfalso. apply in_app_iff in Hin as [Hin|[Hin|[]]].
      * destruct (Hff1 c e Hevs1 Hin) as (_ & ex & Hex).
        rewrite Hex in Hok1. discriminate Hok1.
      * revert Hok0 Hin. rewrite stashChanges_run.
        destruct (git (log (repo st)) git_stash) as [s|e']; intros Hok0 Hin;
          [discriminate Hin|].
        discriminate Hok0.
Qed.

Lemma switchBranch_failure_HEAD b st ex :
  fst (switchBranch git b st) = Raise ex ->
  HEAD (repo (snd (switchBranch git b st))) = HEAD (repo st).
Proof.
  rewrite switchBranch_run.
  destruct (list_attribute b); [reflexivity|].
  destruct (mem b (heads (repo st))); cbv zeta; [|reflexivity].
  destruct (git _ (checkout b)); [discriminate|reflexivity].
Qed.

(** X15.  [applyChanges] never switches back: either the switch to the
    upstream branch failed, and then HEAD and the commits are as before and
    the method raises, or the upstream branch is checked out when the
    method ends, whether it returns or raises. *)
Theorem applyChanges_stays_on_upstream files st :
  (HEAD (repo (snd (applyChanges git abspath files st))) = HEAD (repo st) /\
   commits (repo (snd (applyChanges git abspath files st))) = commits (repo st) /\
   (exists ex, fst (applyChanges git abspath files st) = Raise ex) /\
   exists evs,
     log (repo (snd (applyChanges git abspath files st))) = evs ++ log (repo st) /\
     forallb (fun ev => is_switch (fst ev)) evs = true) \/
  (HEAD (repo (snd (applyChanges git abspath files st))) = Some (upstream (self st)) /\
   exists s evs,
     log (repo (snd (applyChanges git abspath files st)))
     = evs ++ [ (checkout (upstream (self st)), Returns s);
                (heads_getitem (upstream (self st)), Returns (upstream (self st))) ]
           ++ log (repo st)).
Proof.
  pose proof (switchBranch_failure_HEAD (upstream (self st)) st) as Hout.
  applyChanges_paths files st; cbn [fst snd] in Hout.
  all: try (right; cbn; rewrite ?HHEAD3; destruct files; staged; rewrite ?HHEAD1;
            (split; [reflexivity|]);
            rewrite ?Hlog3, Hsw, Hsw_eq; cbn [app]; exists s1;
            match goal with
            | |- exists evs, ?L = evs ++ ?base =>
                let p := prefix_of L base in
                exists p; repeat (cbn [app] || rewrite <- app_assoc); reflexivity
            end).
  all: left; split; [exact (Hout _ eq_refl)|]; split; [exact Hcommits1|];
       split; [eexists; reflexivity|].
  all: exists sw; split; [exact Hsw|exact Hsw_all].
Qed.

(** With a file selection the workflow stops in [stashChanges] or in
    [applyChanges]: its calls are the stash and calls of [applyChanges]. *)
Lemma partial_workflow_events fs st :
  (exists ex, fst (workflow git abspath (Some fs) st) = Raise ex) /\
  exists evs,
    log (repo (snd (workflow git abspath (Some fs) st))) = evs ++ log (repo st) /\
    forall ev,
      In ev evs ->
      (fst ev = git_stash \/ in_applyChanges (fst ev) = true) /\
      (forall n o, ev = (remote_push n, o) -> remote (self st) = Remote n).
Proof.
  destruct (stashChanges_log st) as (Hlog0 & Hself0).
  destruct (applyChanges_extends git abspath (Some fs) (snd (stashChanges git st)))
    as (evs1 & Hevs1 & Hall1).
  destruct (applyChanges_partial_fails git abspath fs (snd (stashChanges git st)))
    as (ex1 & Hex1).
  assert (Hstash_ev : forall ev,
             ev = (git_stash, git (log (repo st)) git_stash) ->
             (fst ev = git_stash \/ in_applyChanges (fst ev) = true) /\
             (forall n o, ev = (remote_push n, o) -> remote (self st) = Remote n)).
  { intros ev ->. split; [left; reflexivity|]. intros n o H. discriminate H. }
  destruct (workflow_cases (Some fs) st)
    as [(-> & H)|[(_ & -> & H)|(_ & Hok & _)]]; cbn [fst snd].
  - split; [exact H|].
    exists [(git_stash, git (log (repo st)) git_stash)]. split; [exact Hlog0|].
    intros ev [<-|[]]. apply Hstash_ev. reflexivity.
  - split; [exact H|].
    exists (evs1 ++ [(git_stash, git (log (repo st)) git_stash)]).
    split; [rewrite Hevs1, Hlog0, <- app_assoc; reflexivity|].
    intros ev Hin. apply in_app_iff in Hin as [Hin|[<-|[]]];
      [|apply Hstash_ev; reflexivity].
    split; [right; exact (proj1 (forallb_forall _ _) Hall1 ev Hin)|].
    intros n o ->. rewrite <- Hself0.
    exact (applyChanges_push_source (Some fs) _ evs1 n o Hevs1 Hin).
  - rewrite Hex1 in Hok. discriminate Hok.
Qed.

End Methods.

(** [s.split(c)] has one part more than [s] has occurrences of [c]. *)
Lemma length_split c s : length (split c s) = S (count_char c s).
Proof.
  induction s as [|x s IH]; cbn; [reflexivity|].
  destruct (Ascii.eqb x c); cbn; [rewrite IH; reflexivity|].
  destruct (split c s) as [|w ws]; cbn in *; [discriminate IH|exact IH].
Qed.

Lemma split_no_sep c s : count_char c s = 0 -> split c s = [s].
Proof.
  induction s as [|x s IH]; cbn; [reflexivity|].
  destruct (Ascii.eqb x c); cbn; [discriminate|].
  intros H. rewrite (IH H). reflexivity.
Qed.

Lemma split_at_sep c a b :
  count_char c a = 0 -> split c (a ++ String c b) = a :: split c b.
Proof.
  induction a as [|x a IH]; cbn.
  - intros _. rewrite Ascii.eqb_refl. reflexivity.
  - destruct (Ascii.eqb x c); cbn; [discriminate|].
    intros H. rewrite (IH H). reflexivity.
Qed.

(** X16.  For any key of the form [section.option], neither part holding a
    dot, [getOption] returns a value given explicitly as it is, without
    asking the reader anything; given [None] it asks the reader whether it
    has the option and, only when it has, for its value, and returns
    [None] when the option is missing. *)
Theorem getOption_by_key section opt value r :
  count_char "." section = 0 ->
  count_char "." opt = 0 ->
  getOption (section ++ "." ++ opt) value r =
  match value with
  | Some v => (Ok (Some v), r)
  | None =>
      match lookup_option section opt (config r) with
      | Some v =>
          (Ok (Some v),
           record (get_value section opt) (Returns v)
                  (record (has_option section opt) (Returns "True") r))
      | None => (Ok None, record (has_option section opt) (Returns "False") r)
      end
  end.
Proof.
  intros Hs Ho. unfold getOption.
  change (section ++ "." ++ opt)%string with (section ++ String "." opt)%string.
  rewrite (split_at_sep "." section opt Hs), (split_no_sep "." opt Ho).
  destruct value as [v|]; [reflexivity|].
  unfold bind, reader_has_option, reader_get_value, read, bind, ret.
  cbn [is_None outcome_result].
  destruct (lookup_option section opt (config r)) eqn:E; cbn.
  - rewrite E. reflexivity.
  - reflexivity.
Qed.

(** X17.  A key that does not hold exactly one dot makes [getOption]
    raise [ValueError] (the unpacking of the split fails) before the reader
    is asked anything: the repository is as it was. *)
Theorem getOption_malformed_key name value r :
  count_char "." name <> 1 ->
  exists ex, getOption name value r = (Raise ex, r) /\ exn_cls ex = E_ValueError.
Proof.
  intros Hn. unfold getOption.
  pose proof (length_split "." name) as Hlen.
  destruct (split "." name) as [|a [|b [|c l]]]; cbn in Hlen.
  - eexists. split; reflexivity.
  - eexists. split; reflexivity.
  - exfalso. apply Hn. injection Hlen as Hlen. symmetry. exact Hlen.
  - eexists. split; reflexivity.
Qed.

(** The construction, summed up for the run of the script. *)
Lemma init_summary up rem usr eml msg nr nc pl (r : Repo) :
  (exists evs,
     log (snd (__init__ up rem usr eml msg nr nc pl r)) = evs ++ log r /\
     forallb (fun ev => in_init (fst ev)) evs = true) /\
  same_but_log r (snd (__init__ up rem usr eml msg nr nc pl r)) /\
  forall ts,
    fst (__init__ up rem usr eml msg nr nc pl r) = Ok ts ->
    HEAD r = Some (thisbranch ts) /\ upstream ts = up /\ remote ts = rem /\
    message ts = msg /\ norebase ts = nr /\ noclear ts = nc /\ pull ts = pl /\
    reapply ts = false.
Proof.
  remember (__init__ up rem usr eml msg nr nc pl r) as res eqn:E.
  symmetry in E. revert E.
  unfold __init__. unfold bind at 1. cbn [get].
  destruct (is_git_Repo (repo_class r)); cbn [negb].
  2:{ intros <-. cbn. split; [exists []; split; reflexivity|].
      split; [apply same_but_log_refl|]. intros ts H. discriminate H. }
  unfold bind at 1. unfold repo_active_branch_name at 1. unfold read at 1.
  destruct (HEAD r) as [b|] eqn:HH; cbn [outcome_result].
  2:{ intros <-. cbn. split; [eexists [_]; split; reflexivity|].
      split; [apply same_but_log_record|]. intros ts H. discriminate H. }
  unfold bind at 1. unfold repo_config_reader at 1. unfold read at 1. cbn [outcome_result].
  unfold bind at 1.
  destruct usr as [u|]; [rewrite getOption_explicit_user|rewrite getOption_from_config_user];
    cbn [config record].
  all: try destruct (lookup_option "user" "name" (config r)) as [cu|].
  all: unfold bind at 1.
  all: destruct eml as [e|];
    [rewrite getOption_explicit_email|rewrite getOption_from_config_email];
    cbn [config record].
  all: try destruct (lookup_option "user" "email" (config r)) as [ce|].
  all: intros <-; cbn [ret fst snd log record].
  all: (split; [new_events; reflexivity|]).
  all: (split; [unfold same_but_log; cbn; tauto|]).
  all: intros ts H; injection H as <-; cbn; rewrite ?HH; repeat split; reflexivity.
Qed.

(** X18.  The construction only reads: whether it succeeds or not, the
    branches, remotes, HEAD, configuration, stash list and commits of the
    repository are as before.  When it succeeds, the instance remembers the
    branch checked out at that moment as the branch to come back to, holds
    the upstream, remote, message and flags it was given, and has the
    [reapply] flag off. *)
Theorem init_reads_only up rem usr eml msg nr nc pl (r : Repo) :
  same_but_log r (snd (__init__ up rem usr eml msg nr nc pl r)) /\
  (exists evs,
     log (snd (__init__ up rem usr eml msg nr nc pl r)) = evs ++ log r /\
     forall ev, In ev evs -> in_init (fst ev) = true) /\
  forall ts,
    fst (__init__ up rem usr eml msg nr nc pl r) = Ok ts ->
    HEAD r = Some (thisbranch ts) /\ upstream ts = up /\ remote ts = rem /\
    message ts = msg /\ norebase ts = nr /\ noclear ts = nc /\ pull ts = pl /\
    reapply ts = false.
Proof.
  destruct (init_summary up rem usr eml msg nr nc pl r) as ((evs & Hevs & Hall) & Hsame & Hts).
  split; [exact Hsame|]. split; [|exact Hts].
  exists evs. split; [exact Hevs|]. exact (proj1 (forallb_forall _ _) Hall).
Qed.

Section Script.

Variable git : list event -> call -> outcome.
Variable abspath : string -> string.

(** Lines 249-256: the four ways the remote named on the command line is
    resolved. *)
Lemma find_remote_cases name r :
  (lower name = "none" /\ find_remote name r = (Ok py_None, r)) \/
  (lower name <> "none" /\ list_attribute name = true /\
   find_remote name r
   = (Ok (list_attr name),
      record (remotes_getitem (py_str name)) (Returns (attribute_repr name)) r)) \/
  (lower name <> "none" /\ list_attribute name = false /\ mem name (remotes r) = true /\
   find_remote name r
   = (Ok (Remote name), record (remotes_getitem (py_str name)) (Returns name) r)) \/
  (lower name <> "none" /\ list_attribute name = false /\ mem name (remotes r) = false /\
   find_remote name r
   = (Raise (mkExn E_IndexError ("No item found with id " ++ name)%string),
      record (remotes_getitem (py_str name))
             (Raises (mkExn E_IndexError ("No item found with id " ++ name)%string)) r)).
Proof.
  unfold find_remote.
  destruct (String.eqb (lower name) "none") eqn:E; cbn [negb].
  - left. apply String.eqb_eq in E. split; [exact E|reflexivity].
  - right. apply String.eqb_neq in E.
    unfold repo_remotes_getitem, IterableList_getitem.
    destruct (list_attribute name); [left; auto|right].
    unfold bind, read.
    destruct (mem name (remotes r)); cbn; [left|right]; auto.
Qed.

(** The calls of a run of the script, kind by kind. *)
Lemma main_log repo0 args :
  exists r evs,
    final_repo (main git abspath (Some repo0) args) = Some r /\
    log r = evs ++ log repo0 /\
    forall ev,
      In ev evs ->
      (is_remotes_lookup (fst ev) = true /\ lower (Args.remote args) <> "none") \/
      in_init (fst ev) = true \/
      fst ev = git_stash \/
      (in_applyChanges (fst ev) = true /\
       (is_push (fst ev) = true -> lower (Args.remote args) <> "none")).
Proof.
  unfold main.
  destruct (find_remote_cases (Args.remote args) repo0)
    as [(Hnone & ->)|[(Hname & Hattr & ->)|[(Hname & Hattr & Hmem & ->)
                                           |(Hname & Hattr & Hmem & ->)]]].
  4:{ cbn [matches exn_cls]. cbv [exn_class_eqb]. cbn.
      eexists _, [_]. split; [reflexivity|]. split; [reflexivity|].
      intros ev [<-|[]]. left. split; [reflexivity|exact Hname]. }
  all: match goal with
       | |- context [__init__ ?a ?b ?c ?d ?e ?f ?g ?h ?r1] =>
           destruct (init_summary a b c d e f g h r1) as ((evs0 & Hevs0 & Hall0) & _ & Hts);
           destruct (__init__ a b c d e f g h r1) as [[scoper|ex] r2]
       end; cbn [fst snd] in Hevs0, Hts.
  all: try (destruct (Hts scoper eq_refl) as (_ & _ & Hrem & _);
            unfold phases;
            destruct (partial_workflow_events git abspath (Args.files args)
                        (mkState scoper r2 [])) as ((ex & Hex) & evs1 & Hevs1 & Hall1);
            destruct (workflow git abspath (Some (Args.files args)) (mkState scoper r2 []))
              as [[[]|ex'] st]; cbn [fst snd repo self] in Hex, Hevs1, Hall1;
            [discriminate Hex|]).
  all: cbn [final_repo].
  all: eexists; rewrite ?Hevs1, ?Hevs0; cbn [log record].
  all: match goal with
       | |- exists evs, _ /\ ?L = evs ++ ?base /\ _ =>
           let p := prefix_of L base in
           exists p; split; [reflexivity|];
           split; [repeat (cbn [app] || rewrite <- app_assoc); reflexivity|]
       end.
  all: intros ev Hin; repeat (apply in_app_iff in Hin as [Hin|Hin]).
  all: try (destruct Hin as [<-|[]]; left; split; [reflexivity|exact Hname]).
  all: try (right; left; exact (proj1 (forallb_forall _ _) Hall0 ev Hin)).
  all: destruct (Hall1 ev Hin) as ([Hst|Hap] & Hpush);
       [right; right; left; exact Hst|right; right; right; split; [exact Hap|]].
  all: intros Hp; destruct ev as [[] o]; try discriminate Hp.
  all: specialize (Hpush _ _ eq_refl); rewrite Hrem in Hpush; try discriminate Hpush.
  all: exact Hname.
Qed.

(** X19.  Run from the command line, the script never reports success:
    it prints nothing to stdout, whatever the repository, the arguments and
    the answers of git; and it never gets to [switchAndRebase]: none of its
    calls is a rebase or a stash drop. *)
Theorem script_never_completes args :
  (forall here, sys_stdout (main git abspath here args) = []) /\
  forall repo0,
    exists r evs,
      final_repo (main git abspath (Some repo0) args) = Some r /\
      log r = evs ++ log repo0 /\
      forall ev, In ev evs -> is_rebase (fst ev) = false /\ is_stash_drop (fst ev) = false.
Proof.
  split.
  - intros [repo0|]; [|reflexivity]. unfold main.
    destruct (find_remote (Args.remote args) repo0) as [[tsRemote|ex] r1].
    + destruct (__init__ _ _ _ _ _ _ _ _ r1) as [[scoper|ex] r2]; [|reflexivity].
      unfold phases.
      destruct (partial_workflow_events git abspath (Args.files args)
                  (mkState scoper r2 [])) as ((ex & Hex) & _).
      destruct (workflow git abspath (Some (Args.files args)) (mkState scoper r2 []))
        as [[[]|ex'] st]; [discriminate Hex|reflexivity].
    + destruct (matches (except E_IndexError) ex); reflexivity.
  - intros repo0. destruct (main_log repo0 args) as (r & evs & Hr & Hevs & Hall).
    exists r, evs. split; [exact Hr|]. split; [exact Hevs|].
    intros ev Hin.
    destruct (Hall ev Hin) as [(H & _)|[H|[H|(H & _)]]];
      destruct ev as [[] o]; cbn in H; try discriminate H; split; reflexivity.
Qed.

(** X20.  With the remote given as "none", in whatever letter case, the
    script never looks a remote up and never pushes. *)
Theorem remote_none_disables_push repo0 args :
  lower (Args.remote args) = "none" ->
  exists r evs,
    final_repo (main git abspath (Some repo0) args) = Some r /\
    log r = evs ++ log repo0 /\
    forall ev, In ev evs -> is_push (fst ev) = false /\ is_remotes_lookup (fst ev) = false.
Proof.
  intros Hnone. destruct (main_log repo0 args) as (r & evs & Hr & Hevs & Hall).
  exists r, evs. split; [exact Hr|]. split; [exact Hevs|].
  intros ev Hin.
  destruct (Hall ev Hin) as [(_ & H)|[H|[H|(H & Hp)]]].
  - contradiction.
  - destruct ev as [[] o]; cbn in H; try discriminate H; split; reflexivity.
  - destruct ev as [[] o]; cbn in H; try discriminate H; split; reflexivity.
  - destruct ev as [[] o]; cbn in H; try discriminate H; split; try reflexivity.
    exfalso. exact (Hp eq_refl Hnone).
Qed.

(** X21.  Inside a repository, the script exits with [REMOTERROR] exactly
    when the remote named is not "none" (in any letter case), is not the
    name of an attribute of the list of remotes, and is not a remote of the
    repository; it has then done nothing but look the remote up, and has
    written two lines to stderr.  (For the name of an attribute of the
    list, such as [sort], the lookup returns that attribute: the script
    goes on with it as its remote and exits with 0.) *)
Theorem exit_status_REMOTERROR_iff repo0 args :
  (exit_code (main git abspath (Some repo0) args) = ExitStatus.REMOTERROR <->
   lower (Args.remote args) <> "none" /\
   list_attribute (Args.remote args) = false /\
   mem (Args.remote args) (remotes repo0) = false) /\
  (lower (Args.remote args) <> "none" ->
   list_attribute (Args.remote args) = false ->
   mem (Args.remote args) (remotes repo0) = false ->
   final_repo (main git abspath (Some repo0) args)
   = Some (record (remotes_getitem (py_str (Args.remote args)))
                  (Raises (mkExn E_IndexError
                             ("No item found with id " ++ Args.remote args)%string))
                  repo0) /\
   length (sys_stderr (main git abspath (Some repo0) args)) = 2) /\
  (lower (Args.remote args) <> "none" ->
   list_attribute (Args.remote args) = true ->
   exit_code (main git abspath (Some repo0) args) = 0).
Proof.
  unfold main.
  destruct (find_remote_cases (Args.remote args) repo0)
    as [(Hnone & ->)|[(Hname & Hattr & ->)|[(Hname & Hattr & Hmem & ->)
                                           |(Hname & Hattr & Hmem & ->)]]].
  4:{ cbn. split; [split; auto|]. split; [intros _ _ _; split; reflexivity|].
      intros _ Ha. congruence. }
  all: destruct (__init__ _ _ _ _ _ _ _ _ _) as [[scoper|ex] r2];
       [destruct (phases git abspath _ _) as [[[]|ex] st]|].
  all: cbn [exit_code].
  all: split; [split; [intros H; discriminate H|intros (Hn & Ha & Hm); congruence]|].
  all: split; [intros Hn Ha Hm; congruence|].
  all: intros _ _; reflexivity.
Qed.

End Script.

(* ===================================================================== *)
(** ** The theorems at work on concrete runs *)
(* ===================================================================== *)

Import Examples.

(** A full run, every git command succeeding, no file selection: the stash
    is made first and dropped last. *)
Example full_run_trace :
  map fst (log (repo (snd (workflow all_fine abspath None start)))) =
  [ git_stash_drop; git_rebase "master"; checkout "topic"; heads_getitem "topic";
    remote_push "origin";
    git_commit (Some "Ann <ann@example.org>") (Some "move");
    git_add "/work"; get_working_dir; git_stash_apply;
    checkout "master"; heads_getitem "master"; git_stash ] /\
  fst (workflow all_fine abspath None start) = Ok tt /\
  stash_list (repo (snd (workflow all_fine abspath None start))) = [].
Proof. vm_compute. repeat split; reflexivity. Qed.

(** C1 at work: the remote rejects the push.  [remote.push()] returns the
    rejection, every other command succeeds: the run goes through and the
    stash entry made at its start is dropped. *)
Lemma stash_drop_ignores_push_result_witness :
  stashChanges push_rejected start = (Ok tt, stashed) /\
  (_ <- applyChanges push_rejected abspath None ;; switchAndRebase push_rejected) stashed
  = (Ok tt, push_ignored) /\
  push_error rejection = true /\
  In (remote_push "origin", Returns rejection) (log (repo push_ignored)) /\
  stash_list (repo stashed) = [0] /\
  stash_list (repo push_ignored) = [].
Proof.
  assert (H1 : stashChanges push_rejected start = (Ok tt, stashed))
    by (vm_compute; reflexivity).
  assert (H2 : (_ <- applyChanges push_rejected abspath None ;;
                switchAndRebase push_rejected) stashed
               = (Ok tt, push_ignored))
    by (vm_compute; reflexivity).
  assert (H3 : push_error rejection = true) by (vm_compute; reflexivity).
  split; [exact H1|]. split; [exact H2|]. split; [exact H3|].
  destruct (stash_drop_ignores_push_result push_rejected abspath None start stashed (Ok tt)
              push_ignored H1 H2)
    as (Hst1 & evs & Hevs & _ & _ & _ & _ & Hrej).
  unfold push_ignored, stashed in Hevs; cbn [log repo] in Hevs. the_events Hevs.
  destruct (Hrej "origin" rejection (or_intror (or_intror (or_intror (or_intror
              (or_introl eq_refl))))) H3 eq_refl eq_refl)
    as (s' & rest & _ & _ & Hdropped).
  split; [do 4 right; left; reflexivity|].
  split; [exact Hst1|exact Hdropped].
Defined.

(** C7 at work: the same run.  The rejected push is not the end of it, and
    the stash entry is gone when it ends. *)
Lemma rejected_push_does_not_abort_witness :
  stashChanges push_rejected start = (Ok tt, stashed) /\
  (_ <- applyChanges push_rejected abspath None ;; switchAndRebase push_rejected) stashed
  = (Ok tt, push_ignored) /\
  push_error rejection = true /\
  (exists later rest,
     later <> [] /\
     log (repo push_ignored)
     = later ++ (remote_push "origin", Returns rejection) :: rest) /\
  stash_list (repo push_ignored) = [].
Proof.
  assert (H1 : stashChanges push_rejected start = (Ok tt, stashed))
    by (vm_compute; reflexivity).
  assert (H2 : (_ <- applyChanges push_rejected abspath None ;;
                switchAndRebase push_rejected) stashed
               = (Ok tt, push_ignored))
    by (vm_compute; reflexivity).
  assert (H3 : push_error rejection = true) by (vm_compute; reflexivity).
  split; [exact H1|]. split; [exact H2|]. split; [exact H3|].
  destruct (rejected_push_does_not_abort push_rejected abspath None start stashed (Ok tt)
              push_ignored H1 H2)
    as (evs & Hevs & _ & Hrej).
  destruct (Hrej "origin" rejection) as ((later & a & m & s4 & rest & Hlater & Heq) & Hdrop).
  { unfold push_ignored, stashed in Hevs; cbn [log repo] in Hevs. the_events Hevs.
    do 4 right. left. reflexivity. }
  { exact H3. }
  split; [|exact (Hdrop eq_refl eq_refl)].
  exists later. eexists. split; [exact Hlater|].
  rewrite Hevs, Heq, <- app_assoc. reflexivity.
Defined.

(** The other way a push fails: the remote cannot be reached and
    [remote.push()] raises.  The run ends there in [RemoteError], with the
    commit made and the stash entry kept. *)
Example unreachable_remote_trace :
  workflow push_unreachable abspath None start
  = (Raise (mkExn E_RemoteError
              ("Problem with push:" ++ nl ++ "Could not read from remote repository.")),
     push_failed) /\
  commits (repo push_failed)
  = [mkCommit (Some "master") (Some "Ann <ann@example.org>") (Some "move")] /\
  stash_list (repo push_failed) = [0].
Proof. vm_compute. repeat split; reflexivity. Qed.

(** The rebase stops on a conflict: the run ends in [ConflictError] with
    the stash entry kept, and HEAD is left detached. *)
Example rebase_conflict_trace :
  fst (workflow rebase_conflict abspath None start)
  = Raise (mkExn E_ConflictError ("Problem in rebase:" ++ nl ++ "conflict")) /\
  stash_list (repo (snd (workflow rebase_conflict abspath None start))) = [0] /\
  HEAD (repo (snd (workflow rebase_conflict abspath None start))) = None.
Proof. vm_compute. repeat split; reflexivity. Qed.

(** A pull that returns: the commit the remote had is now a commit of the
    branch checked out. *)
Example pull_brings_incoming :
  fst (pullFromRemote all_fine start_behind) = Ok tt /\
  commits (repo (snd (pullFromRemote all_fine start_behind)))
  = [mkCommit (Some "topic") (Some "Bob") (Some "fix")] /\
  incoming (repo (snd (pullFromRemote all_fine start_behind))) = [].
Proof. vm_compute. repeat split; reflexivity. Qed.

(** The command line [-r sort]: [repo.remotes['sort']] is the method [sort]
    of the list, no [IndexError] is raised and the script goes on with the
    method as its remote; it exits with 0. *)
Example attribute_as_remote_trace :
  find_remote "sort" repo0
  = (Ok (list_attr "sort"),
     record (remotes_getitem (py_str "sort")) (Returns "IterableList.sort") repo0) /\
  exit_code (main all_fine abspath (Some repo0) args_sort) = 0 /\
  ExitStatus.REMOTERROR = 4.
Proof. vm_compute. repeat split; reflexivity. Qed.

(** The witness of C8: no branch [nosuch] in the repository. *)
Lemma switchBranch_unknown_branch_witness :
  mem "nosuch" (heads (repo start)) = false /\
  fst (switchBranch all_fine "nosuch" start) = Raise BranchError_failure.
Proof.
  assert (H : mem "nosuch" (heads (repo start)) = false) by reflexivity.
  split; [exact H|].
  destruct (switchBranch_unknown_branch all_fine "nosuch" start H) as (ex & Hex & _).
  rewrite Hex. vm_compute in Hex. injection Hex as <-. reflexivity.
Defined.

(** The witness of C9: a name given, no email given; the name is kept
    without asking the configuration, the email comes from it. *)
Lemma explicit_identity_takes_precedence_witness :
  exists ts r',
    __init__ "master" py_None (Some "Bob") None None false false false repo0 = (Ok ts, r') /\
    user ts = Some "Bob" /\
    email ts = Some "ann@example.org".
Proof.
  eexists _, _. 
  assert (H : __init__ "master" py_None (Some "Bob") None None false false false repo0
              = (Ok (mkTeleScope "topic" "master" py_None (Some "Bob")
                       (Some "ann@example.org") None false false false false),
                 snd (__init__ "master" py_None (Some "Bob") None None false false false
                               repo0)))
    by (vm_compute; reflexivity).
  split; [exact H|].
  destruct (explicit_identity_takes_precedence _ _ _ _ _ _ _ _ _ _ _ H)
    as (evs & _ & Hu & _ & _ & He).
  split; [exact (proj1 (Hu "Bob" eq_refl))|exact (He eq_refl)].
Defined.

(** The witness of C10: an object of a class derived from [git.Repo]. *)
Lemma init_requires_git_Repo_witness :
  repo_class repo_subclass <> git_Repo /\
  __init__ "master" py_None None None None false false false repo_subclass
  = (Raise (mkExn E_TypeError "'repo' must be a Git repository object."), repo_subclass).
Proof.
  assert (H : repo_class repo_subclass <> git_Repo) by discriminate.
  split; [exact H|].
  exact (init_requires_git_Repo "master" py_None None None None false false false
                                repo_subclass H).
Defined.

(** The counterexample to C4 as stated: with neither name nor email, there
    is no identity error; the commit is handed to git, without author, and
    [applyChanges] returns. *)
Lemma commit_invoked_without_identity :
  __init__ "master" py_None None None (Some "move") false false false repo_anonymous
  = (Ok scoper_anonymous, repo anonymous_start) /\
  user scoper_anonymous = None /\ email scoper_anonymous = None /\
  fst (applyChanges all_fine abspath None anonymous_start) = Ok tt /\
  In (git_commit None (Some "move"), Returns "")
     (log (repo (snd (applyChanges all_fine abspath None anonymous_start)))).
Proof.
  vm_compute. repeat split; try reflexivity. tauto.
Qed.

(** C2 at work: the working tree is clean, [stashChanges] raises
    [StashError], and the script exits with status 0, not [STASHERROR]. *)
Example clean_tree_exit_status :
  exit_code (main clean_tree abspath (Some repo0) args0) = 0 /\
  sys_stderr (main clean_tree abspath (Some repo0) args0) = ["No local changes to save"] /\
  sys_stdout (main clean_tree abspath (Some repo0) args0) = [] /\
  ExitStatus.STASHERROR = 2.
Proof. vm_compute. repeat split; reflexivity. Qed.

(** C3 at work: no file named on the command line; nothing is added, the
    commit is made all the same, and the run ends in [backoutChanges]. *)
Example no_file_named_trace :
  map fst (log (repo (snd (phases all_fine abspath [] start)))) =
  [ head_reset; remote_push "origin";
    git_commit (Some "Ann <ann@example.org>") (Some "move");
    git_stash_apply; checkout "master"; heads_getitem "master"; git_stash ] /\
  reapply (self (snd (phases all_fine abspath [] start))) = true /\
  fst (phases all_fine abspath [] start) = Raise no_active_branch.
Proof. vm_compute. repeat split; reflexivity. Qed.

(** C5 at work: [pull=True], a remote set, every command succeeding: the
    run completes without any pull. *)
Example pull_flag_trace :
  pull (self start_pull) = true /\
  map fst (log (repo (snd (workflow all_fine abspath None start_pull)))) =
  [ git_stash_drop; git_rebase "master"; checkout "topic"; heads_getitem "topic";
    remote_push "origin";
    git_commit (Some "Ann <ann@example.org>") (Some "move");
    git_add "/work"; get_working_dir; git_stash_apply;
    checkout "master"; heads_getitem "master"; git_stash ] /\
  fst (workflow all_fine abspath None start_pull) = Ok tt.
Proof. vm_compute. repeat split; reflexivity. Qed.

(** C6 at work: one file selected, every command succeeding: after the
    index reset the run ends in [AttributeError]; no forced checkout, no
    return to the local branch, and the script still exits with 0. *)
Example partial_run_trace :
  map fst (log (repo (snd (phases all_fine abspath ["a.txt"] start)))) =
  [ head_reset; remote_push "origin";
    git_commit (Some "Ann <ann@example.org>") (Some "move");
    git_add "/work/a.txt"; git_stash_apply;
    checkout "master"; heads_getitem "master"; git_stash ] /\
  fst (phases all_fine abspath ["a.txt"] start) = Raise no_active_branch /\
  HEAD (repo (snd (phases all_fine abspath ["a.txt"] start))) = Some "master" /\
  exit_code (main all_fine abspath (Some repo0) args_files) = 0.
Proof. vm_compute. repeat split; reflexivity. Qed.

(** A run for X4: no remote [backup] in the repository. *)
Lemma pullFromRemote_unknown_remote_witness :
  remote (self start_backup) = py_str "backup" /\
  mem "backup" (remotes (repo start_backup)) = false /\
  list_attribute "backup" = false /\
  fst (pullFromRemote all_fine start_backup)
  = Raise (mkExn E_RemoteError "Remote backup not found").
Proof.
  assert (H : list_attribute "backup" = false) by (vm_compute; reflexivity).
  split; [reflexivity|]. split; [reflexivity|]. split; [exact H|].
  exact (proj1 (pullFromRemote_unknown_remote all_fine start_backup "backup"
                  eq_refl eq_refl H)).
Defined.

(** A run for the name of an attribute: the remote given as [sort]. *)
Lemma pullFromRemote_attribute_name_witness :
  remote (self start_sort) = py_str "sort" /\
  list_attribute "sort" = true /\
  exists ex,
    fst (pullFromRemote all_fine start_sort) = Raise ex /\ exn_cls ex = E_RemoteError /\
    prefix "Problem with pull:" (exn_message ex) = true.
Proof.
  assert (H : list_attribute "sort" = true) by (vm_compute; reflexivity).
  split; [reflexivity|]. split; [exact H|].
  exact (proj1 (pullFromRemote_attribute_name all_fine start_sort "sort" eq_refl H)).
Defined.

(** A run for X5: the instance holds the remote object. *)
Lemma pullFromRemote_needs_a_name_witness :
  remote (self start) = Remote "origin" /\
  exists ex, fst (pullFromRemote all_fine start) = Raise ex /\ exn_cls ex = E_RemoteError.
Proof.
  split; [reflexivity|].
  refine (proj1 (pullFromRemote_needs_a_name all_fine start _)).
  intros name H. discriminate H.
Defined.

(** A run for X6: [applyChanges] of the full run. *)
Lemma applyChanges_success_witness :
  applyChanges all_fine abspath None stashed = (Ok tt, applied) /\
  commits (repo applied)
  = [mkCommit (Some "master") (Some "Ann <ann@example.org>") (Some "move")] /\
  HEAD (repo applied) = Some "master".
Proof.
  assert (H : applyChanges all_fine abspath None stashed = (Ok tt, applied))
    by (vm_compute; reflexivity).
  split; [exact H|].
  destruct (applyChanges_success all_fine abspath None stashed applied H)
    as (_ & _ & Hcommits & HHEAD & _).
  split; [exact Hcommits|exact HHEAD].
Defined.

(** A run for X9: the remote given as the name [origin]. *)
Lemma name_as_remote_never_completes_witness :
  remote (self start_named) = py_str "origin" /\
  exists ex, fst (workflow all_fine abspath None start_named) = Raise ex.
Proof.
  split; [reflexivity|].
  exact (name_as_remote_never_completes all_fine abspath None start_named "origin" eq_refl).
Defined.

(** A run for X11: [noclear] set. *)
Lemma noclear_keeps_stash_witness :
  noclear (self start_noclear) = true /\
  stash_list (repo (snd (workflow all_fine abspath None start_noclear)))
  = stash_list (repo (snd (stashChanges all_fine start_noclear))).
Proof.
  split; [reflexivity|].
  exact (proj2 (noclear_keeps_stash all_fine abspath None start_noclear eq_refl)).
Defined.

(** A run for X12: [norebase] set. *)
Lemma norebase_skips_rebase_witness :
  norebase (self start_norebase) = true /\
  exists evs,
    log (repo (snd (workflow all_fine abspath None start_norebase)))
    = evs ++ log (repo start_norebase) /\
    forall ev, In ev evs -> is_rebase (fst ev) = false.
Proof.
  split; [reflexivity|].
  exact (proj1 (norebase_skips_rebase all_fine abspath None start_norebase eq_refl)).
Defined.

(** A run for X13: the full run. *)
Lemma workflow_success_witness :
  workflow all_fine abspath None start = (Ok tt, finished) /\
  HEAD (repo finished) = Some "topic" /\
  stash_list (repo finished) = [].
Proof.
  assert (H : workflow all_fine abspath None start = (Ok tt, finished))
    by (vm_compute; reflexivity).
  split; [exact H|].
  destruct (workflow_success all_fine abspath None start finished H)
    as (_ & HHEAD & _ & Hstash & _).
  split; [exact HHEAD|exact Hstash].
Defined.

(** A key for X16: [user.name], not given, in a repository that has it. *)
Lemma getOption_by_key_witness :
  count_char "." "user" = 0 /\ count_char "." "name" = 0 /\
  fst (getOption "user.name" None repo0) = Ok (Some "Ann").
Proof.
  split; [reflexivity|]. split; [reflexivity|].
  exact (f_equal fst (getOption_by_key "user" "name" None repo0 eq_refl eq_refl)).
Defined.

(** A key for X17: no dot in it. *)
Lemma getOption_malformed_key_witness :
  count_char "." "username" <> 1 /\
  exists ex, getOption "username" None repo0 = (Raise ex, repo0) /\ exn_cls ex = E_ValueError.
Proof.
  assert (H : count_char "." "username" <> 1) by discriminate.
  split; [exact H|].
  exact (getOption_malformed_key "username" None repo0 H).
Defined.

(** A run for X20: the command line [-r None]. *)
Lemma remote_none_disables_push_witness :
  lower (Args.remote args_none) = "none" /\
  exists r evs,
    final_repo (main all_fine abspath (Some repo0) args_none) = Some r /\
    log r = evs ++ log repo0 /\
    forall ev, In ev evs -> is_push (fst ev) = false /\ is_remotes_lookup (fst ev) = false.
Proof.
  split; [reflexivity|].
  exact (remote_none_disables_push all_fine abspath repo0 args_none eq_refl).
Defined.
